(** * mcp-pyrefly-autotype: the server's glue logic, embedded and verified

    The development follows [src/mcp_pyrefly_autotype/server.py]:
    - Python text ([str]) is a Rocq [string] whose characters are the code
      points below 256; [strip] and [lower] are Python's on that range;
    - a Python [dict] with string keys is a [gmap string _];
    - the operating system (file existence, the spawned process, the
      backup copy, the directory listing) is a record of oracles, and every
      interaction with it is logged in a trace of events;
    - exceptions are values of [exn], threaded by a small monad. *)

From Stdlib Require Import ZArith Ascii String List Bool Lia DecimalString.
From stdpp Require Import gmap strings list fin_maps.

Local Open Scope string_scope.
Local Open Scope list_scope.

(** ** Python text *)

Module PyStr.

Definition code (c : ascii) : N := N_of_ascii c.

(** [str.isspace] on one character, for the code points below 256. *)
Definition is_space (c : ascii) : bool :=
  let n := code c in
  ((9 <=? n) && (n <=? 13) || (28 <=? n) && (n <=? 32)
   || (n =? 133) || (n =? 160))%N.

(** [str.lower] on one character, for the code points below 256. *)
Definition lower_char (c : ascii) : ascii :=
  let n := code c in
  if ((65 <=? n) && (n <=? 90)
      || (192 <=? n) && (n <=? 222) && negb (n =? 215))%N
  then ascii_of_N (n + 32) else c.

Fixpoint lower (s : string) : string :=
  match s with
  | EmptyString => EmptyString
  | String c s' => String (lower_char c) (lower s')
  end.

Fixpoint lstrip (s : string) : string :=
  match s with
  | EmptyString => EmptyString
  | String c s' => if is_space c then lstrip s' else s
  end.

Fixpoint rstrip (s : string) : string :=
  match s with
  | EmptyString => EmptyString
  | String c s' =>
      match rstrip s' with
      | EmptyString => if is_space c then EmptyString else String c EmptyString
      | r => String c r
      end
  end.

(** [s.strip()] *)
Definition strip (s : string) : string := rstrip (lstrip s).

Definition newline : ascii := ascii_of_N 10.

(** [s.split('\n')]: never empty, one more piece than there are newlines. *)
Fixpoint split_lines (s : string) : list string :=
  match s with
  | EmptyString => [EmptyString]
  | String c s' =>
      if Ascii.eqb c newline then EmptyString :: split_lines s'
      else match split_lines s' with
           | [] => [String c EmptyString]
           | l :: ls => String c l :: ls
           end
  end.

Fixpoint startswith (s p : string) {struct p} : bool :=
  match p, s with
  | EmptyString, _ => true
  | String _ _, EmptyString => false
  | String a p', String b s' => Ascii.eqb a b && startswith s' p'
  end.

(** [sub in s] *)
Fixpoint contains (sub s : string) : bool :=
  startswith s sub
  || match s with
     | EmptyString => false
     | String _ s' => contains sub s'
     end.

(** [s.endswith(suffix)] *)
Fixpoint endswith (s suffix : string) : bool :=
  String.eqb s suffix
  || match s with
     | EmptyString => false
     | String _ s' => endswith s' suffix
     end.

(** [sep.join(parts)] *)
Fixpoint join (sep : string) (parts : list string) : string :=
  match parts with
  | [] => EmptyString
  | [p] => p
  | p :: ps => p +:+ sep +:+ join sep ps
  end.

(** Decimal rendering of an integer, as [str(n)] and [f"{n}"] give it. *)
Definition of_Z (z : Z) : string := NilZero.string_of_int (Z.to_int z).
Definition of_nat (n : nat) : string := of_Z (Z.of_nat n).

End PyStr.

(** ** Python values, dicts and exceptions *)

(** The scalar values that travel through the server: tool arguments
    (JSON scalars) and the entries of a result record. *)
Inductive pyval : Type :=
| PNone
| PBool (b : bool)
| PInt (z : Z)
| PStr (s : string).

(** The values stored in the analysis and the project-context dicts. *)
Inductive pyobj : Type :=
| OVal (v : pyval)
| OList (l : list pyval)
| ODict (d : list (string * pyval)).

Inductive exn : Type :=
| ValueError (msg : string)
| KeyError (key : string)
| TypeError (msg : string)
| AttributeError (msg : string)
| TimeoutExpired (msg : string)
| OtherException (msg : string).

(** [str(e)] *)
Definition exn_str (e : exn) : string :=
  match e with
  | KeyError k => "'" +:+ k +:+ "'"
  | ValueError m | TypeError m | AttributeError m
  | TimeoutExpired m | OtherException m => m
  end.

(** Truthiness, as [if x:] and [not x] see it. *)
Definition truthy (v : pyval) : bool :=
  match v with
  | PNone => false
  | PBool b => b
  | PInt z => negb (z =? 0)%Z
  | PStr s => negb (String.eqb s "")
  end.

(** [str(v)], which is what an f-string field [{v}] inserts. *)
Definition py_str (v : pyval) : string :=
  match v with
  | PNone => "None"
  | PBool true => "True"
  | PBool false => "False"
  | PInt z => PyStr.of_Z z
  | PStr s => s
  end.

Definition type_name (v : pyval) : string :=
  match v with
  | PNone => "NoneType"
  | PBool _ => "bool"
  | PInt _ => "int"
  | PStr _ => "str"
  end.

(** A computation that may raise. *)
Definition res (A : Type) : Type := exn + A.

Definition res_bind {A B} (r : res A) (k : A -> res B) : res B :=
  match r with
  | inl e => inl e
  | inr a => k a
  end.

(** [d[k]] *)
Definition getitem {V} (d : gmap string V) (k : string) : res V :=
  match d !! k with
  | Some v => inr v
  | None => inl (KeyError k)
  end.

(** [d.get(k, default)] *)
Definition dict_get {V} (d : gmap string V) (k : string) (default : V) : V :=
  match d !! k with
  | Some v => v
  | None => default
  end.

(** [d.get(k, default)] on a nested dict, kept as an association list. *)
Fixpoint assoc_get (d : list (string * pyval)) (k : string) (default : pyval) : pyval :=
  match d with
  | [] => default
  | (k', v) :: d' => if String.eqb k' k then v else assoc_get d' k default
  end.

(** [output.split('\n')]: only text has the method. *)
Definition py_split_lines (output : pyval) : res (list string) :=
  match output with
  | PStr s => inr (PyStr.split_lines s)
  | v => inl (AttributeError ("'" +:+ type_name v +:+ "' object has no attribute 'split'"))
  end.

(** ** The operating system and the trace of interactions *)

(** What [subprocess.run(cmd, capture_output=True, text=True, timeout=t)]
    can do: return a completed process, or raise. *)
Inductive run_outcome : Type :=
| Completed (returncode : Z) (stdout stderr : string)
| RunTimeout (msg : string)
| RunRaises (msg : string).

(** A directory as [os.walk] lists it: sub-directories and other entries,
    each in listing order. [Unlisted] is a path that yields nothing: not a
    directory, not readable (listing errors are swallowed, [onerror] is
    unset), or a symbolic link, which the walk names but does not enter. *)
#[warnings="-register-all"]
Inductive fstree : Type :=
| Listed (dirs : list (string * fstree)) (files : list string)
| Unlisted.

Record World : Type := {
  path_exists : pyval -> bool;                         (* os.path.exists *)
  subprocess_run : list pyval -> Z -> run_outcome;     (* subprocess.run *)
  shutil_copy2 : pyval -> string -> option string;     (* None: copied; Some m: raised, str(e) = m *)
  os_walk : string -> string + fstree                  (* inl m: the walk raises, str(e) = m *)
}.

Inductive event : Type :=
| EvExists (p : pyval)
| EvSpawn (cmd : list pyval) (timeout : Z)
| EvCopy (src : pyval) (dst : string)
| EvWalk (top : pyval).

(** Computations that log events and may raise. *)
Definition M (A : Type) : Type := list event -> list event * res A.

Definition ret {A} (a : A) : M A := fun tr => (tr, inr a).
Definition raise {A} (e : exn) : M A := fun tr => (tr, inl e).
Definition bind {A B} (m : M A) (k : A -> M B) : M B :=
  fun tr => match m tr with
            | (tr', inl e) => (tr', inl e)
            | (tr', inr a) => k a tr'
            end.
Definition emit (ev : event) : M unit := fun tr => (tr ++ [ev], inr tt).
Definition lift {A} (r : res A) : M A := fun tr => (tr, r).

(** [try: m  except Exception as e: h e] *)
Definition try_except {A} (m : M A) (h : exn -> M A) : M A :=
  fun tr => match m tr with
            | (tr', inl e) => h e tr'
            | (tr', inr a) => (tr', inr a)
            end.

Notation "'let*' x ':=' m 'in' k" := (bind m (fun x => k))
  (at level 10, x name, m at level 100, k at level 200).
Notation "'run*' m 'in' k" := (bind m (fun _ => k))
  (at level 10, m at level 100, k at level 200).

(** Run a computation from the empty trace. *)
Definition run {A} (m : M A) : list event * res A := m [].

(** The processes a trace spawned, and the files it wrote. *)
Definition spawns (tr : list event) : list (list pyval * Z) :=
  flat_map (fun ev => match ev with EvSpawn c t => [(c, t)] | _ => [] end) tr.
Definition copies (tr : list event) : list (pyval * string) :=
  flat_map (fun ev => match ev with EvCopy s d => [(s, d)] | _ => [] end) tr.

(** ** PyreflyAnalyzer._parse_pyrefly_analysis *)

Definition is_function_line (line : string) : bool :=
  PyStr.contains "function" (PyStr.lower line) && PyStr.contains "type" (PyStr.lower line).

Definition is_variable_line (line : string) : bool :=
  PyStr.contains "variable" (PyStr.lower line) && PyStr.contains "type" (PyStr.lower line).

(** One turn of the [for line in lines] loop; the state is the pair of
    lists the analysis dict aliases. *)
Definition parse_step (st : list string * list string) (line : string)
  : list string * list string :=
  let line := PyStr.strip line in
  if is_function_line line then (fst st ++ [line], snd st)
  else if is_variable_line line then (fst st, snd st ++ [line])
  else st.

Definition _parse_pyrefly_analysis (output file_path : pyval) : res (gmap string pyobj) :=
  res_bind (py_split_lines output) (fun lines =>
  let st := fold_left parse_step lines ([], []) in
  inr (<["file_path" := OVal file_path]>
      (<["functions_needing_types" := OList (PStr <$> fst st)]>
      (<["variables_needing_types" := OList (PStr <$> snd st)]>
      (<["suggested_types" := ODict []]>
      (<["total_functions" := OVal (PInt 0)]>
      (<["total_variables" := OVal (PInt 0)]>
      (<["pyrefly_output" := OVal output]> ∅)))))))).

(** ** Dynamic operations on the stored objects *)

Definition nl : string := String PyStr.newline EmptyString.

Module PyRepr.

Definition hex_digit (n : N) : ascii :=
  if (n <? 10)%N then ascii_of_N (48 + n) else ascii_of_N (87 + n).

(** [\xhh] *)
Definition hex_escape (c : ascii) : string :=
  let n := PyStr.code c in
  String "\" (String "x" (String (hex_digit (n / 16)) (String (hex_digit (n mod 16)) EmptyString))).

Definition has_char (q : ascii) (s : string) : bool :=
  PyStr.contains (String q EmptyString) s.

(** The quote [repr] picks: double quotes only when the text has a single
    quote and no double quote. *)
Definition dquote : ascii := ascii_of_N 34.

Definition quote_of (s : string) : ascii :=
  if has_char "'" s && negb (has_char dquote s) then dquote else "'"%char.

Definition escape_char (q c : ascii) : string :=
  let n := PyStr.code c in
  if Ascii.eqb c q || Ascii.eqb c "\" then String "\" (String c EmptyString)
  else if (n =? 9)%N then "\t"
  else if (n =? 10)%N then "\n"
  else if (n =? 13)%N then "\r"
  else if ((n <? 32) || (n =? 127))%N then hex_escape c
  else if (n <? 127)%N then String c EmptyString
  else if ((n <=? 160) || (n =? 173))%N then hex_escape c
  else String c EmptyString.

Fixpoint escape (q : ascii) (s : string) : string :=
  match s with
  | EmptyString => EmptyString
  | String c s' => escape_char q c +:+ escape q s'
  end.

(** [repr(s)] for text *)
Definition of_string (s : string) : string :=
  let q := quote_of s in
  String q (escape q s) +:+ String q EmptyString.

(** [repr(v)] *)
Definition of_val (v : pyval) : string :=
  match v with
  | PStr s => of_string s
  | _ => py_str v
  end.

End PyRepr.

(** [str(o)], which is what an f-string field [{o}] inserts. *)
Definition obj_str (o : pyobj) : string :=
  match o with
  | OVal v => py_str v
  | OList l => "[" +:+ PyStr.join ", " (PyRepr.of_val <$> l) +:+ "]"
  | ODict d =>
      "{" +:+ PyStr.join ", "
                ((fun kv => PyRepr.of_string (fst kv) +:+ ": " +:+ PyRepr.of_val (snd kv)) <$> d)
          +:+ "}"
  end.

Fixpoint chars (s : string) : list pyval :=
  match s with
  | EmptyString => []
  | String c s' => PStr (String c EmptyString) :: chars s'
  end.

(** [len(o)] *)
Definition py_len (o : pyobj) : res nat :=
  match o with
  | OList l => inr (length l)
  | ODict d => inr (length d)
  | OVal (PStr s) => inr (String.length s)
  | OVal v => inl (TypeError ("object of type '" +:+ type_name v +:+ "' has no len()"))
  end.

(** [for x in o] *)
Definition py_iter (o : pyobj) : res (list pyval) :=
  match o with
  | OList l => inr l
  | ODict d => inr ((fun kv => PStr (fst kv)) <$> d)
  | OVal (PStr s) => inr (chars s)
  | OVal v => inl (TypeError ("'" +:+ type_name v +:+ "' object is not iterable"))
  end.

(** [o.items()] *)
Definition py_items (o : pyobj) : res (list (string * pyval)) :=
  match o with
  | ODict d => inr d
  | OList _ => inl (AttributeError "'list' object has no attribute 'items'")
  | OVal v => inl (AttributeError ("'" +:+ type_name v +:+ "' object has no attribute 'items'"))
  end.

(** [o.get(k, default)] *)
Definition py_get (o : pyobj) (k : string) (default : pyval) : res pyval :=
  match o with
  | ODict d => inr (assoc_get d k default)
  | OList _ => inl (AttributeError "'list' object has no attribute 'get'")
  | OVal v => inl (AttributeError ("'" +:+ type_name v +:+ "' object has no attribute 'get'"))
  end.

(** [o[:n]] *)
Definition py_take (n : nat) (o : pyobj) : res pyobj :=
  match o with
  | OList l => inr (OList (firstn n l))
  | OVal (PStr s) => inr (OVal (PStr (String.substring 0 n s)))
  | ODict _ => inl (TypeError "unhashable type: 'slice'")
  | OVal v => inl (TypeError ("'" +:+ type_name v +:+ "' object is not subscriptable"))
  end.

(** ** os.path.join and the pruned walk *)

(** [os.path.join(a, b)] on a POSIX system. *)
Definition path_join (a b : string) : string :=
  if PyStr.startswith b "/" then b
  else if String.eqb a "" || PyStr.endswith a "/" then a +:+ b
  else a +:+ "/" +:+ b.

(** The directories the list comprehension of [get_project_context] drops:
    it keeps [d] when [not d.startswith('.') and d not in ['__pycache__', 'node_modules']]. *)
Definition keep_dir (d : string) : bool :=
  negb (PyStr.startswith d ".")
  && negb (String.eqb d "__pycache__" || String.eqb d "node_modules").

(** The inner [for file in files] loop. *)
Definition collect_files (root : string) (files : list string) (acc : list string) : list string :=
  fold_left (fun acc file => if PyStr.endswith file ".py" then acc ++ [path_join root file] else acc)
            files acc.

(** The [for root, dirs, files in os.walk(project_path)] loop. The walk is
    top-down: it yields a directory, the body rewrites [dirs] in place and
    appends the directory's [.py] files, and the walk then enters, in
    order, the sub-directories still named in [dirs]. *)
Fixpoint walk_collect (t : fstree) (root : string) (acc : list string) {struct t} : list string :=
  match t with
  | Unlisted => acc
  | Listed dirs files =>
      (fix enter (ds : list (string * fstree)) (acc : list string) {struct ds} : list string :=
         match ds with
         | [] => acc
         | (d, sub) :: ds' =>
             enter ds' (if keep_dir d then walk_collect sub (path_join root d) acc else acc)
         end) dirs (collect_files root files acc)
  end.

(** ** The server, over a given operating system *)

Section Server.

Variable w : World.

(** [os.path.exists(p)] *)
Definition py_exists (p : pyval) : M bool :=
  run* emit (EvExists p) in ret (path_exists w p).

(** [subprocess.run(cmd, capture_output=True, text=True, timeout=timeout)]:
    blocks until the process ends or the timeout expires. *)
Definition py_subprocess_run (cmd : list pyval) (timeout : Z) : M (Z * string * string) :=
  run* emit (EvSpawn cmd timeout) in
  match subprocess_run w cmd timeout with
  | Completed rc out err => ret (rc, out, err)
  | RunTimeout m => raise (TimeoutExpired m)
  | RunRaises m => raise (OtherException m)
  end.

(** [shutil.copy2(src, dst)] *)
Definition py_copy2 (src : pyval) (dst : string) : M unit :=
  run* emit (EvCopy src dst) in
  match shutil_copy2 w src dst with
  | None => ret tt
  | Some m => raise (OtherException m)
  end.

(** The whole [for ... in os.walk(top)] loop of [get_project_context],
    started from the files collected so far. [os.walk] takes a path:
    [os.fspath] refuses any other value. *)
Definition py_walk_collect (top : pyval) : M (list string) :=
  run* emit (EvWalk top) in
  match top with
  | PStr s =>
      match os_walk w s with
      | inr t => ret (walk_collect t s [])
      | inl m => raise (OtherException m)
      end
  | v => raise (TypeError ("expected str, bytes or os.PathLike object, not " +:+ type_name v))
  end.

(** The record of a run that completed. *)
Definition completed_record (k_out k_err : string) (rc : Z) (out err : string)
  : gmap string pyval :=
  <["success" := PBool (rc =? 0)%Z]>
  (<[k_out := PStr out]>
  (<[k_err := PStr err]>
  (<["returncode" := PInt rc]> ∅))).

(** The record of a run that raised. *)
Definition failed_record (msg : string) : gmap string pyval :=
  <["success" := PBool false]> (<["error" := PStr msg]> ∅).

(** [PyreflyAnalyzer.run_pyrefly_command(cmd, timeout=60)] *)
Definition run_pyrefly_command (cmd : list pyval) (timeout : Z) : M (gmap string pyval) :=
  try_except
    (let* r := py_subprocess_run cmd timeout in
     let '(rc, out, err) := r in
     ret (completed_record "stdout" "stderr" rc out err))
    (fun e =>
       match e with
       | TimeoutExpired _ =>
           ret (failed_record ("Pyrefly execution timed out after " +:+ PyStr.of_Z timeout +:+ "s"))
       | _ => ret (failed_record (exn_str e))
       end).

Definition default_timeout : Z := 60.

(** The command [run_pyrefly_autotype] builds before it spawns it. *)
Definition autotype_cmd (file_path : pyval) (options : option (gmap string pyval)) : list pyval :=
  let cmd := [PStr "uv"; PStr "run"; PStr "pyrefly"; PStr "autotype"; file_path] in
  match options with
  | Some o =>
      if negb (bool_decide (dom o = (∅ : gset string))) && truthy (dict_get o "verbose" PNone)
      then cmd ++ [PStr "--verbose"] else cmd
  | None => cmd
  end.

(** [run_pyrefly_autotype(file_path, options=None)] *)
Definition run_pyrefly_autotype (file_path : pyval) (options : option (gmap string pyval))
  : M (gmap string pyval) :=
  try_except
    (let cmd := autotype_cmd file_path options in
     let* r := py_subprocess_run cmd 60 in
     let '(rc, out, err) := r in
     ret (completed_record "stdout" "stderr" rc out err))
    (fun e =>
       match e with
       | TimeoutExpired _ => ret (failed_record "Pyrefly autotype execution timed out")
       | _ => ret (failed_record (exn_str e))
       end).

(** [run_pyrefly_check(file_path)] *)
Definition run_pyrefly_check (file_path : pyval) : M (gmap string pyval) :=
  try_except
    (let* r := py_subprocess_run [PStr "uv"; PStr "run"; PStr "pyrefly"; PStr "check"; file_path] 30 in
     let '(rc, out, err) := r in
     ret (completed_record "output" "errors" rc out err))
    (fun e =>
       match e with
       | TimeoutExpired _ => ret (failed_record "Pyrefly check execution timed out")
       | _ => ret (failed_record (exn_str e))
       end).

(** The dict [analyze_file] returns when it has no analysis. *)
Definition error_analysis (err file_path : pyval) : gmap string pyobj :=
  <["error" := OVal err]> (<["file_path" := OVal file_path]> ∅).

(** [PyreflyAnalyzer.analyze_file(file_path)] *)
Definition analyze_file (file_path : pyval) : M (gmap string pyobj) :=
  try_except
    (let* result := run_pyrefly_command
                      [PStr "uv"; PStr "run"; PStr "pyrefly"; PStr "autotype"; file_path]
                      default_timeout in
     let* success := lift (getitem result "success") in
     if truthy success then
       let* stdout := lift (getitem result "stdout") in
       lift (_parse_pyrefly_analysis stdout file_path)
     else
       ret (error_analysis
              (dict_get result "error" (dict_get result "stderr" (PStr "Unknown error")))
              file_path))
    (fun e => ret (error_analysis (PStr (exn_str e)) file_path)).

(** [except Exception as e: context["error"] = str(e)], from the state the
    context dict had when the exception was raised. *)
Definition or_record_error (context : gmap string pyobj) (m : M (gmap string pyobj))
  : M (gmap string pyobj) :=
  try_except m (fun e => ret (<["error" := OVal (PStr (exn_str e))]> context)).

(** [PyreflyAnalyzer.get_project_context(project_path)] *)
Definition get_project_context (project_path : pyval) : M (gmap string pyobj) :=
  let context : gmap string pyobj :=
    <["project_path" := OVal project_path]>
    (<["python_files" := OList []]>
    (<["pyrefly_compatible" := OVal (PBool false)]>
    (<["analysis_summary" := ODict []]> ∅))) in
  or_record_error context
    (let* pyrefly_check := run_pyrefly_command
                             [PStr "uv"; PStr "run"; PStr "pyrefly"; PStr "check"; project_path]
                             default_timeout in
     let* success := lift (getitem pyrefly_check "success") in
     let context := <["pyrefly_compatible" := OVal success]> context in
     or_record_error context
       (let* python_files := py_walk_collect project_path in
        let context := <["python_files" := OList (PStr <$> python_files)]> context in
        or_record_error context
          (let* success := lift (getitem pyrefly_check "success") in
           if truthy success then
             let* stdout := lift (getitem pyrefly_check "stdout") in
             ret (<["analysis_summary" :=
                      ODict [("output", stdout);
                             ("total_files", PInt (Z.of_nat (length python_files)))]]> context)
           else ret context))).

(** *** handle_call_tool *)

Definition bullet (v : pyval) : string := "  - " +:+ py_str v.

(** The f-string of the [detailed] branch. *)
Definition detailed_text (file_path : pyval) (analysis : gmap string pyobj) : res string :=
  let functions := dict_get analysis "functions_needing_types" (OList []) in
  let variables := dict_get analysis "variables_needing_types" (OList []) in
  res_bind (py_len functions) (fun n_fun =>
  res_bind (py_iter functions) (fun funs =>
  res_bind (py_len variables) (fun n_var =>
  res_bind (py_iter variables) (fun vars =>
  res_bind (py_items (dict_get analysis "suggested_types" (ODict []))) (fun hints =>
  inr ("Detailed Pyrefly Analysis for " +:+ py_str file_path +:+ ":" +:+ nl +:+ nl
       +:+ "Functions needing types (" +:+ PyStr.of_nat n_fun +:+ "):" +:+ nl
       +:+ PyStr.join nl (bullet <$> funs) +:+ nl +:+ nl
       +:+ "Variables needing types (" +:+ PyStr.of_nat n_var +:+ "):" +:+ nl
       +:+ PyStr.join nl (bullet <$> vars) +:+ nl +:+ nl
       +:+ "Suggested types:" +:+ nl
       +:+ PyStr.join nl ((fun kv => "  - " +:+ fst kv +:+ ": " +:+ py_str (snd kv)) <$> hints)
       +:+ nl +:+ nl
       +:+ "Pyrefly Output:" +:+ nl
       +:+ obj_str (dict_get analysis "pyrefly_output" (OVal (PStr "No output available"))))))))).

(** The f-string of the other branch. *)
Definition brief_text (file_path : pyval) (analysis : gmap string pyobj) : res string :=
  res_bind (py_len (dict_get analysis "functions_needing_types" (OList []))) (fun n_fun =>
  res_bind (py_len (dict_get analysis "variables_needing_types" (OList []))) (fun n_var =>
  inr ("Pyrefly Analysis for " +:+ py_str file_path +:+ ":" +:+ nl
       +:+ "Functions needing types: " +:+ PyStr.of_nat n_fun +:+ nl
       +:+ "Variables needing types: " +:+ PyStr.of_nat n_var))).

(** The f-string of the [get_project_context] branch. *)
Definition context_text (project_path : pyval) (context : gmap string pyobj) : res string :=
  let python_files := dict_get context "python_files" (OList []) in
  res_bind (py_len python_files) (fun n_files =>
  res_bind (py_get (dict_get context "analysis_summary" (ODict [])) "output"
                   (PStr "No analysis available")) (fun summary =>
  res_bind (py_take 20 python_files) (fun first_files =>
  res_bind (py_iter first_files) (fun shown =>
  res_bind (py_len python_files) (fun n_files' =>
  inr ("Project Context for " +:+ py_str project_path +:+ ":" +:+ nl +:+ nl
       +:+ "Python files found: " +:+ PyStr.of_nat n_files +:+ nl
       +:+ "Pyrefly compatible: "
       +:+ obj_str (dict_get context "pyrefly_compatible" (OVal (PBool false))) +:+ nl +:+ nl
       +:+ "Analysis summary:" +:+ nl
       +:+ py_str summary +:+ nl +:+ nl
       +:+ "Files:" +:+ nl
       +:+ PyStr.join nl (bullet <$> shown) +:+ nl
       +:+ (if (20 <? n_files')%nat then "  ... and more" else EmptyString))))))).

(** [not arguments] *)
Definition no_arguments (arguments : option (gmap string pyval)) : bool :=
  match arguments with
  | None => true
  | Some a => bool_decide (dom a = (∅ : gset string))
  end.

(** The two checks every operation starts with: the path argument is
    there, and [os.path.exists] accepts it. *)
Definition require_path (missing not_found : string) (path : pyval) : M unit :=
  if negb (truthy path) then raise (ValueError missing)
  else
    let* found := py_exists path in
    if negb found then raise (ValueError (not_found +:+ py_str path))
    else ret tt.

(** [handle_call_tool(name, arguments)]; the result is the text of each
    returned [TextContent]. *)
Definition handle_call_tool (name : string) (arguments : option (gmap string pyval))
  : M (list string) :=
  if no_arguments arguments then raise (ValueError "Missing arguments")
  else
    let arguments := default ∅ arguments in
    if String.eqb name "analyze_python_file" then
      let file_path := dict_get arguments "file_path" PNone in
      let detailed := dict_get arguments "detailed" (PBool false) in
      run* require_path "Missing file_path argument" "File not found: " file_path in
      let* analysis := analyze_file file_path in
      let* result_text :=
        lift (if truthy detailed then detailed_text file_path analysis
              else brief_text file_path analysis) in
      ret [result_text]
    else if String.eqb name "add_types_to_file" then
      let file_path := dict_get arguments "file_path" PNone in
      let backup := dict_get arguments "backup" (PBool true) in
      let aggressive := dict_get arguments "aggressive" (PBool false) in
      let safe_mode := dict_get arguments "safe_mode" (PBool true) in
      run* require_path "Missing file_path argument" "File not found: " file_path in
      let* early :=
        (if truthy backup then
           let backup_path := py_str file_path +:+ ".backup" in
           try_except
             (run* py_copy2 file_path backup_path in ret None)
             (fun e => ret (Some ["Failed to create backup: " +:+ exn_str e]))
         else ret None) in
      match early with
      | Some content => ret content
      | None =>
          let options : gmap string pyval :=
            <["aggressive" := aggressive]> (<["safe_mode" := safe_mode]> ∅) in
          let* result := run_pyrefly_autotype file_path (Some options) in
          let* success := lift (getitem result "success") in
          if truthy success then
            let* stdout := lift (getitem result "stdout") in
            ret ["Successfully added types to " +:+ py_str file_path +:+ nl +:+ nl
                 +:+ "Output:" +:+ nl +:+ py_str stdout]
          else
            ret ["Failed to add types to " +:+ py_str file_path +:+ nl +:+ nl
                 +:+ "Error:" +:+ nl
                 +:+ py_str (dict_get result "error"
                               (dict_get result "stderr" (PStr "Unknown error")))]
      end
    else if String.eqb name "type_check_file" then
      let file_path := dict_get arguments "file_path" PNone in
      run* require_path "Missing file_path argument" "File not found: " file_path in
      let* result := run_pyrefly_check file_path in
      let* success := lift (getitem result "success") in
      if truthy success then
        let* output := lift (getitem result "output") in
        ret ["Type checking passed for " +:+ py_str file_path +:+ nl +:+ nl
             +:+ "Output:" +:+ nl +:+ py_str output]
      else
        let* output := lift (getitem result "output") in
        ret ["Type checking found issues in " +:+ py_str file_path +:+ nl +:+ nl
             +:+ "Errors:" +:+ nl +:+ py_str output +:+ nl
             +:+ py_str (dict_get result "errors" (PStr EmptyString))]
    else if String.eqb name "get_project_context" then
      let project_path := dict_get arguments "project_path" PNone in
      run* require_path "Missing project_path argument" "Project path not found: " project_path in
      let* context := get_project_context project_path in
      let* result_text := lift (context_text project_path context) in
      ret [result_text]
    else raise (ValueError ("Unknown tool: " +:+ name)).

End Server.

Arguments handle_call_tool w name arguments : simpl never.


(** ** The listings: tools, prompts, resources *)

(** One entry of the [properties] of an input schema. *)
Record schema_property : Type := {
  prop_name : string;
  prop_type : string;
  prop_description : string;
  prop_default : option pyval
}.

(** [types.Tool] *)
Record tool : Type := {
  tool_name : string;
  tool_description : string;
  tool_properties : list schema_property;
  tool_required : list string
}.

(** [handle_list_tools()] *)
Definition handle_list_tools : list tool :=
  [ {| tool_name := "analyze_python_file";
       tool_description := "Analyze a Python file for missing type annotations";
       tool_properties :=
         [ {| prop_name := "file_path"; prop_type := "string";
              prop_description := "Path to the Python file to analyze";
              prop_default := None |};
           {| prop_name := "detailed"; prop_type := "boolean";
              prop_description := "Include detailed analysis information";
              prop_default := Some (PBool false) |} ];
       tool_required := ["file_path"] |};
    {| tool_name := "add_types_to_file";
       tool_description := "Add type annotations to a Python file using Pyrefly";
       tool_properties :=
         [ {| prop_name := "file_path"; prop_type := "string";
              prop_description := "Path to the Python file to add types to";
              prop_default := None |};
           {| prop_name := "backup"; prop_type := "boolean";
              prop_description := "Create a backup of the original file";
              prop_default := Some (PBool true) |};
           {| prop_name := "aggressive"; prop_type := "boolean";
              prop_description := "Use aggressive type inference";
              prop_default := Some (PBool false) |};
           {| prop_name := "safe_mode"; prop_type := "boolean";
              prop_description := "Use safe mode for type inference";
              prop_default := Some (PBool true) |} ];
       tool_required := ["file_path"] |};
    {| tool_name := "type_check_file";
       tool_description := "Run type checking on a Python file using Pyrefly";
       tool_properties :=
         [ {| prop_name := "file_path"; prop_type := "string";
              prop_description := "Path to the Python file to type check";
              prop_default := None |} ];
       tool_required := ["file_path"] |};
    {| tool_name := "get_project_context";
       tool_description := "Get project-wide type information for better type inference";
       tool_properties :=
         [ {| prop_name := "project_path"; prop_type := "string";
              prop_description := "Path to the project directory";
              prop_default := None |} ];
       tool_required := ["project_path"] |} ].

(** [types.PromptArgument] and [types.Prompt] *)
Record prompt_argument : Type := {
  parg_name : string;
  parg_description : string;
  parg_required : bool
}.

Record prompt : Type := {
  prompt_name : string;
  prompt_description : string;
  prompt_arguments : list prompt_argument
}.

(** [handle_list_prompts()] *)
Definition handle_list_prompts : list prompt :=
  [ {| prompt_name := "analyze_typing_needs";
       prompt_description := "Analyze a Python file or project to determine typing needs";
       prompt_arguments :=
         [ {| parg_name := "file_path";
              parg_description := "Path to the Python file to analyze";
              parg_required := true |};
           {| parg_name := "include_suggestions";
              parg_description := "Include type suggestions in the analysis";
              parg_required := false |} ] |};
    {| prompt_name := "type_improvement_plan";
       prompt_description := "Create a plan for improving type coverage in a project";
       prompt_arguments :=
         [ {| parg_name := "project_path";
              parg_description := "Path to the project directory";
              parg_required := true |};
           {| parg_name := "priority";
              parg_description := "Priority level (high/medium/low)";
              parg_required := false |} ] |} ].

(** A parsed URL, as far as the server looks at one: [uri.scheme] and
    [str(uri)]. *)
Record any_url : Type := {
  url_scheme : string;
  url_text : string
}.

(** [types.Resource] *)
Record resource : Type := {
  resource_uri : any_url;
  resource_name : string;
  resource_description : string;
  resource_mime_type : string
}.

(** [handle_list_resources()] *)
Definition handle_list_resources : list resource :=
  [ {| resource_uri := {| url_scheme := "pyrefly"; url_text := "pyrefly://analysis/status" |};
       resource_name := "Pyrefly Analysis Status";
       resource_description := "Current status and capabilities of the Pyrefly type analyzer";
       resource_mime_type := "application/json" |} ].

(** A JSON string literal with nothing to escape in it. *)
Definition quoted (s : string) : string :=
  String PyRepr.dquote s +:+ String PyRepr.dquote EmptyString.

(** The document [handle_read_resource] returns, line by line. *)
Definition status_document : string :=
  PyStr.join nl
    [ "{";
      "    " +:+ quoted "status" +:+ ": " +:+ quoted "active" +:+ ",";
      "    " +:+ quoted "capabilities" +:+ ": [";
      "        " +:+ quoted "Python file analysis" +:+ ",";
      "        " +:+ quoted "Type inference" +:+ ",";
      "        " +:+ quoted "Type checking" +:+ ",";
      "        " +:+ quoted "Project context analysis";
      "    ],";
      "    " +:+ quoted "supported_tools" +:+ ": [";
      "        " +:+ quoted "analyze_python_file" +:+ ",";
      "        " +:+ quoted "add_types_to_file" +:+ ", ";
      "        " +:+ quoted "type_check_file" +:+ ",";
      "        " +:+ quoted "get_project_context";
      "    ]";
      "}" ].

(** [handle_read_resource(uri)] *)
Definition handle_read_resource (uri : any_url) : res string :=
  if negb (String.eqb (url_scheme uri) "pyrefly")
  then inl (ValueError ("Unsupported URI scheme: " +:+ url_scheme uri))
  else if String.eqb (url_text uri) "pyrefly://analysis/status"
  then inr status_document
  else inl (ValueError ("Unknown resource: " +:+ url_text uri)).

(** ** The prompts *)

(** [repr(o)] *)
Definition obj_repr (o : pyobj) : string :=
  match o with
  | OVal v => PyRepr.of_val v
  | _ => obj_str o
  end.

(** [str(d)] of a dict whose keys were inserted in the order of [keys]:
    Python prints a dict in insertion order, which a [gmap] does not keep. *)
Definition dict_str (keys : list string) (d : gmap string pyobj) : string :=
  "{" +:+ PyStr.join ", "
            (omap (fun k => match d !! k with
                            | Some v => Some (PyRepr.of_string k +:+ ": " +:+ obj_repr v)
                            | None => None
                            end) keys)
      +:+ "}".

(** The insertion order of every dict [analyze_file] returns (the error
    dict has [error] first, the analysis has no [error]), and of every
    dict [get_project_context] returns ([error] is added last). *)
Definition analysis_keys : list string :=
  ["error"; "file_path"; "functions_needing_types"; "variables_needing_types";
   "suggested_types"; "total_functions"; "total_variables"; "pyrefly_output"].

Definition context_keys : list string :=
  ["project_path"; "python_files"; "pyrefly_compatible"; "analysis_summary"; "error"].

(** [s.lower()], which only text has. *)
Definition py_lower (v : pyval) : res string :=
  match v with
  | PStr s => inr (PyStr.lower s)
  | v => inl (AttributeError ("'" +:+ type_name v +:+ "' object has no attribute 'lower'"))
  end.

(** [types.GetPromptResult] with its one user message. *)
Record prompt_result : Type := {
  result_description : string;
  result_role : string;
  result_text : string
}.

(** [arguments or {}] *)
Definition or_empty (arguments : option (gmap string pyval)) : gmap string pyval :=
  default ∅ arguments.

Section Prompts.

Variable w : World.

(** [PyreflyAnalyzer.analyze_file] with [self.run_pyrefly_command] left
    open, as the tests patch it. *)
Definition analyze_file_with (run_command : list pyval -> Z -> M (gmap string pyval))
  (file_path : pyval) : M (gmap string pyobj) :=
  try_except
    (let* result := run_command
                      [PStr "uv"; PStr "run"; PStr "pyrefly"; PStr "autotype"; file_path]
                      default_timeout in
     let* success := lift (getitem result "success") in
     if truthy success then
       let* stdout := lift (getitem result "stdout") in
       lift (_parse_pyrefly_analysis stdout file_path)
     else
       ret (error_analysis
              (dict_get result "error" (dict_get result "stderr" (PStr "Unknown error")))
              file_path))
    (fun e => ret (error_analysis (PStr (exn_str e)) file_path)).

(** The f-string of the [analyze_typing_needs] prompt. *)
Definition typing_needs_text (file_path : pyval) (analysis : gmap string pyobj)
  (suggestions_text : string) : res string :=
  res_bind (py_len (dict_get analysis "functions_needing_types" (OList []))) (fun n_fun =>
  res_bind (py_len (dict_get analysis "variables_needing_types" (OList []))) (fun n_var =>
  inr ("Analyze this Python file for type annotation opportunities:" +:+ nl +:+ nl
       +:+ "File: " +:+ py_str file_path +:+ nl
       +:+ "Pyrefly Analysis Results:" +:+ nl +:+ nl
       +:+ "Functions needing types: " +:+ PyStr.of_nat n_fun +:+ nl
       +:+ "Variables needing types: " +:+ PyStr.of_nat n_var +:+ nl +:+ nl
       +:+ "Pyrefly Output:" +:+ nl
       +:+ obj_str (dict_get analysis "pyrefly_output" (OVal (PStr "No output available")))
       +:+ nl +:+ nl
       +:+ "Details:" +:+ nl
       +:+ dict_str analysis_keys analysis +:+ nl
       +:+ suggestions_text))).

(** The f-string of the [type_improvement_plan] prompt. *)
Definition improvement_plan_text (project_path priority : pyval) (context : gmap string pyobj)
  : res string :=
  res_bind (py_len (dict_get context "python_files" (OList []))) (fun n_files =>
  inr ("Create a type improvement plan for this Python project:" +:+ nl +:+ nl
       +:+ "Project: " +:+ py_str project_path +:+ nl
       +:+ "Priority: " +:+ py_str priority +:+ nl
       +:+ "Python files found: " +:+ PyStr.of_nat n_files +:+ nl +:+ nl
       +:+ "Project context:" +:+ nl
       +:+ dict_str context_keys context +:+ nl +:+ nl
       +:+ "Please suggest a prioritized plan for adding type annotations, considering:" +:+ nl
       +:+ "1. Files with the lowest type coverage" +:+ nl
       +:+ "2. Critical functions and public APIs" +:+ nl
       +:+ "3. Dependencies between modules" +:+ nl
       +:+ "4. Incremental typing strategy")).

(** [handle_get_prompt(name, arguments)] *)
Definition handle_get_prompt (name : string) (arguments : option (gmap string pyval))
  : M prompt_result :=
  if String.eqb name "analyze_typing_needs" then
    let file_path := dict_get (or_empty arguments) "file_path" (PStr EmptyString) in
    let* lowered := lift (py_lower (dict_get (or_empty arguments) "include_suggestions"
                                      (PStr "false"))) in
    let include_suggestions := String.eqb lowered "true" in
    if negb (truthy file_path) then raise (ValueError "file_path argument is required")
    else
      let* analysis := analyze_file w file_path in
      let suggestions_text :=
        if include_suggestions
        then nl +:+ nl +:+ "Please provide specific type annotations for the identified functions and variables."
        else EmptyString in
      let* text := lift (typing_needs_text file_path analysis suggestions_text) in
      ret {| result_description := "Type analysis for " +:+ py_str file_path;
             result_role := "user";
             result_text := text |}
  else if String.eqb name "type_improvement_plan" then
    let project_path := dict_get (or_empty arguments) "project_path" (PStr EmptyString) in
    let priority := dict_get (or_empty arguments) "priority" (PStr "medium") in
    if negb (truthy project_path) then raise (ValueError "project_path argument is required")
    else
      let* context := get_project_context w project_path in
      let* text := lift (improvement_plan_text project_path priority context) in
      ret {| result_description := "Type improvement plan for " +:+ py_str project_path;
             result_role := "user";
             result_text := text |}
  else raise (ValueError ("Unknown prompt: " +:+ name)).

End Prompts.

Arguments handle_get_prompt w name arguments : simpl never.

(** ** The sample module [tests/test_large_file.py] *)

Module Sample.

(** One turn of the loop of [group_by_first_letter]: [grouped] is a
    [defaultdict(list)], so a missing key starts from the empty list. *)
Definition group_step (grouped : gmap string (list string)) (w : string)
  : gmap string (list string) :=
  match w with
  | EmptyString => grouped
  | String c _ =>
      let key := String (PyStr.lower_char c) EmptyString in
      <[key := default [] (grouped !! key) ++ [w]]> grouped
  end.

(** [group_by_first_letter(words)] *)
Definition group_by_first_letter (words : list string) : gmap string (list string) :=
  fold_left group_step words ∅.

(** [x.get("price", 0)], for items whose entries are integers. *)
Definition price (x : gmap string Z) : Z := default 0%Z (x !! "price").

(** [get_most_expensive_item(items)]: [max] keeps the first item whose key
    no later item exceeds. *)
Definition get_most_expensive_item (items : list (gmap string Z)) : option (gmap string Z) :=
  match items with
  | [] => None
  | x :: xs =>
      Some (fold_left (fun best y => if (price best <? price y)%Z then y else best) xs x)
  end.

End Sample.
(** * Vocabulary of the statements *)

(** Text made of whitespace only, and text that starts or ends with it. *)
Fixpoint all_space (s : string) : bool :=
  match s with
  | EmptyString => true
  | String c s' => PyStr.is_space c && all_space s'
  end.

Definition starts_with_space (s : string) : bool :=
  match s with
  | EmptyString => false
  | String c _ => PyStr.is_space c
  end.

Fixpoint ends_with_space (s : string) : bool :=
  match s with
  | EmptyString => false
  | String c EmptyString => PyStr.is_space c
  | String _ s' => ends_with_space s'
  end.

(** The reading of the two tests: the lowercased line has the keyword, and
    the word [type], as substrings. *)
Definition has_both (keyword line : string) : Prop :=
  (exists pre post, PyStr.lower line = pre +:+ keyword +:+ post)
  /\ (exists pre post, PyStr.lower line = pre +:+ "type" +:+ post).


(** A world given by the answers it makes: whether paths exist, whether
    the copy raises, how every process ends, what the walk finds. *)
Definition world_where (found : bool) (copy : option string) (o : run_outcome) (t : fstree)
  : World :=
  {| path_exists := fun _ => found;
     subprocess_run := fun _ _ => o;
     shutil_copy2 := fun _ _ => copy;
     os_walk := fun _ => inr t |}.

(** The three places that spawn the external tool. *)
Inductive runner : Type :=
| ByCommand (cmd : list pyval) (timeout : Z)
| ByAutotype (file_path : pyval) (options : option (gmap string pyval))
| ByCheck (file_path : pyval).

Definition runner_exec (w : World) (rn : runner) : M (gmap string pyval) :=
  match rn with
  | ByCommand cmd timeout => run_pyrefly_command w cmd timeout
  | ByAutotype file_path options => run_pyrefly_autotype w file_path options
  | ByCheck file_path => run_pyrefly_check w file_path
  end.

Definition runner_cmd (rn : runner) : list pyval :=
  match rn with
  | ByCommand cmd _ => cmd
  | ByAutotype file_path options => autotype_cmd file_path options
  | ByCheck file_path => [PStr "uv"; PStr "run"; PStr "pyrefly"; PStr "check"; file_path]
  end.

Definition runner_timeout (rn : runner) : Z :=
  match rn with
  | ByCommand _ timeout => timeout
  | ByAutotype _ _ => 60
  | ByCheck _ => 30
  end.

(** The keys under which a runner stores the captured stdout and stderr. *)
Definition stdout_key (rn : runner) : string :=
  match rn with ByCheck _ => "output" | _ => "stdout" end.
Definition stderr_key (rn : runner) : string :=
  match rn with ByCheck _ => "errors" | _ => "stderr" end.

Definition timeout_message (rn : runner) : string :=
  match rn with
  | ByCommand _ timeout => "Pyrefly execution timed out after " +:+ PyStr.of_Z timeout +:+ "s"
  | ByAutotype _ _ => "Pyrefly autotype execution timed out"
  | ByCheck _ => "Pyrefly check execution timed out"
  end.

(** What the operating system answers to the runner's one call. *)
Definition runner_outcome (w : World) (rn : runner) : run_outcome :=
  subprocess_run w (runner_cmd rn) (runner_timeout rn).

(** The record a runner builds from an outcome. *)
Definition outcome_record (rn : runner) (o : run_outcome) : gmap string pyval :=
  match o with
  | Completed rc out err => completed_record (stdout_key rn) (stderr_key rn) rc out err
  | RunTimeout _ => failed_record (timeout_message rn)
  | RunRaises m => failed_record m
  end.

(** A record with a success flag, the captured stdout and stderr, and the
    exit code (the error string being optional). *)
Definition has_all_fields (rn : runner) (r : gmap string pyval) : Prop :=
  is_Some (r !! "success") /\ is_Some (r !! stdout_key rn)
  /\ is_Some (r !! stderr_key rn) /\ is_Some (r !! "returncode").

(** Every run, whatever its outcome, returns such a record. *)
Definition every_record_has_all_fields : Prop :=
  forall (w : World) (rn : runner),
    exists r, snd (run (runner_exec w rn)) = inr r /\ has_all_fields rn r.

(** The command of [analyze_file] and the one of [get_project_context]. *)
Definition analysis_cmd (file_path : pyval) : list pyval :=
  [PStr "uv"; PStr "run"; PStr "pyrefly"; PStr "autotype"; file_path].
Definition project_check_cmd (project_path : pyval) : list pyval :=
  [PStr "uv"; PStr "run"; PStr "pyrefly"; PStr "check"; project_path].

(** The analysis [_parse_pyrefly_analysis] builds from the text [output]. *)
Definition parsed_analysis (output : string) (file_path : pyval) : gmap string pyobj :=
  let st := fold_left parse_step (PyStr.split_lines output) ([], []) in
  <["file_path" := OVal file_path]>
  (<["functions_needing_types" := OList (PStr <$> fst st)]>
  (<["variables_needing_types" := OList (PStr <$> snd st)]>
  (<["suggested_types" := ODict []]>
  (<["total_functions" := OVal (PInt 0)]>
  (<["total_variables" := OVal (PInt 0)]>
  (<["pyrefly_output" := OVal (PStr output)]> ∅)))))).

(** The error text a failed run leaves in its record: the [error] entry, or
    else the captured stderr. *)
Definition failure_text (rn : runner) (o : run_outcome) : string :=
  match o with
  | Completed _ _ err => err
  | RunTimeout _ => timeout_message rn
  | RunRaises m => m
  end.

(** The run ended with exit code zero. *)
Definition succeeded (o : run_outcome) : bool :=
  match o with
  | Completed rc _ _ => (rc =? 0)%Z
  | _ => false
  end.

Definition captured_stdout (o : run_outcome) : string :=
  match o with
  | Completed _ out _ => out
  | _ => EmptyString
  end.

(** A directory name the walk does not enter. *)
Definition pruned_name (d : string) : Prop :=
  (exists rest, d = "." +:+ rest) \/ d = "__pycache__" \/ d = "node_modules".

(** [reaches t root p]: walking the tree [t] listed at path [root], without
    entering a pruned directory, meets a file whose name ends in [.py] and
    whose path is [p]. *)
Inductive reaches : fstree -> string -> string -> Prop :=
| reaches_here dirs files root file :
    In file files ->
    (exists stem, file = stem +:+ ".py") ->
    reaches (Listed dirs files) root (path_join root file)
| reaches_below dirs files root d sub p :
    In (d, sub) dirs ->
    ~ pruned_name d ->
    reaches sub (path_join root d) p ->
    reaches (Listed dirs files) root p.

(** The same files as a list, in the order of a top-down walk. *)
Fixpoint python_files_of (t : fstree) (root : string) {struct t} : list string :=
  match t with
  | Unlisted => []
  | Listed dirs files =>
      (path_join root <$> List.filter (fun file => PyStr.endswith file ".py") files)
      ++ (fix below (ds : list (string * fstree)) : list string :=
            match ds with
            | [] => []
            | (d, sub) :: ds' =>
                (if keep_dir d then python_files_of sub (path_join root d) else [])
                ++ below ds'
            end) dirs
  end.

(** The tree the walk of [get_project_context] goes through: nothing when
    the walk raises. *)
Definition walked_tree (w : World) (project_path : pyval) : fstree :=
  match project_path with
  | PStr s => match os_walk w s with inr t => t | inl _ => Unlisted end
  | _ => Unlisted
  end.

(** The four operations, and the argument that carries the path of each. *)
Definition known_tool (name : string) : bool :=
  String.eqb name "analyze_python_file" || String.eqb name "add_types_to_file"
  || String.eqb name "type_check_file" || String.eqb name "get_project_context".

Definition path_key (name : string) : string :=
  if String.eqb name "get_project_context" then "project_path" else "file_path".

Definition path_arg (name : string) (arguments : option (gmap string pyval)) : pyval :=
  dict_get (default ∅ arguments) (path_key name) PNone.

(** [arguments.get(key, default)] on the arguments of a call. *)
Definition arg (arguments : option (gmap string pyval)) (key : string) (default_value : pyval)
  : pyval :=
  dict_get (default ∅ arguments) key default_value.

(** The summary [analyze_python_file] returns when it holds no analysis. *)
Definition empty_summary (file_path : pyval) : string :=
  "Pyrefly Analysis for " +:+ py_str file_path +:+ ":" +:+ nl
  +:+ "Functions needing types: 0" +:+ nl
  +:+ "Variables needing types: 0".

(** The options [handle_call_tool] hands to [run_pyrefly_autotype]. *)
Definition handler_options (aggressive safe_mode : pyval) : gmap string pyval :=
  <["aggressive" := aggressive]> (<["safe_mode" := safe_mode]> ∅).

(** The text [add_types_to_file] returns after the run. *)
Definition add_types_text (file_path : pyval) (rn : runner) (o : run_outcome) : string :=
  if succeeded o
  then "Successfully added types to " +:+ py_str file_path +:+ nl +:+ nl
       +:+ "Output:" +:+ nl +:+ captured_stdout o
  else "Failed to add types to " +:+ py_str file_path +:+ nl +:+ nl
       +:+ "Error:" +:+ nl +:+ failure_text rn o.

(** The text [type_check_file] returns after a run that completed. *)
Definition type_check_text (file_path : pyval) (rc : Z) (out err : string) : string :=
  if (rc =? 0)%Z
  then "Type checking passed for " +:+ py_str file_path +:+ nl +:+ nl
       +:+ "Output:" +:+ nl +:+ out
  else "Type checking found issues in " +:+ py_str file_path +:+ nl +:+ nl
       +:+ "Errors:" +:+ nl +:+ out +:+ nl +:+ err.

Definition backup_path (file_path : pyval) : string := py_str file_path +:+ ".backup".

Definition check_cmd (file_path : pyval) : list pyval :=
  [PStr "uv"; PStr "run"; PStr "pyrefly"; PStr "check"; file_path].

(** The walk of [get_project_context] went through without raising. *)
Definition walk_completes (w : World) (project_path : pyval) : bool :=
  match project_path with
  | PStr s => match os_walk w s with inr _ => true | inl _ => false end
  | _ => false
  end.

(** The text [get_project_context] returns. *)
Definition project_text (project_path : pyval) (o : run_outcome) (walked : bool)
  (files : list string) : string :=
  "Project Context for " +:+ py_str project_path +:+ ":" +:+ nl +:+ nl
  +:+ "Python files found: " +:+ PyStr.of_nat (length files) +:+ nl
  +:+ "Pyrefly compatible: " +:+ (if succeeded o then "True" else "False") +:+ nl +:+ nl
  +:+ "Analysis summary:" +:+ nl
  +:+ (if succeeded o && walked then captured_stdout o else "No analysis available")
  +:+ nl +:+ nl
  +:+ "Files:" +:+ nl
  +:+ PyStr.join nl ((fun file => "  - " +:+ file) <$> firstn 20 files) +:+ nl
  +:+ (if (20 <? length files)%nat then "  ... and more" else EmptyString).

(** The request passes the handler's checks: a known operation, a path
    argument that is there, and a path that exists. *)
Definition accepted (w : World) (name : string) (arguments : option (gmap string pyval)) : bool :=
  known_tool name && truthy (path_arg name arguments)
  && path_exists w (path_arg name arguments).

(** The backup copy is asked for and fails. *)
Definition backup_fails (w : World) (arguments : option (gmap string pyval)) : bool :=
  let file_path := arg arguments "file_path" PNone in
  truthy (arg arguments "backup" (PBool true))
  && match shutil_copy2 w file_path (backup_path file_path) with
     | Some _ => true
     | None => false
     end.

(** The command and the timeout of the one process an operation spawns. *)
Definition tool_cmd (name : string) (path : pyval) : list pyval :=
  if String.eqb name "get_project_context" then project_check_cmd path
  else if String.eqb name "type_check_file" then check_cmd path
  else analysis_cmd path.

Definition tool_timeout (name : string) : Z :=
  if String.eqb name "type_check_file" then 30 else 60.

(** The interactions of one call with the operating system, in order. *)
Definition expected_trace (w : World) (name : string) (arguments : option (gmap string pyval))
  : list event :=
  let p := path_arg name arguments in
  if negb (known_tool name && truthy p) then []
  else if negb (path_exists w p) then [EvExists p]
  else
    EvExists p ::
    (if String.eqb name "add_types_to_file" then
       (if truthy (arg arguments "backup" (PBool true))
        then [EvCopy p (backup_path p)] else [])
       ++ (if backup_fails w arguments then [] else [EvSpawn (tool_cmd name p) (tool_timeout name)])
     else if String.eqb name "get_project_context" then
       [EvSpawn (tool_cmd name p) (tool_timeout name); EvWalk p]
     else [EvSpawn (tool_cmd name p) (tool_timeout name)]).

(** The arguments [{"file_path": path}]. *)
Definition only_path (key path : string) : option (gmap string pyval) :=
  Some (<[key := PStr path]> ∅).

(** The options carry a true [verbose] entry. *)
Definition asks_verbose (options : option (gmap string pyval)) : bool :=
  match options with
  | Some o => truthy (dict_get o "verbose" PNone)
  | None => false
  end.

(** The arguments the schema of each operation requires
    ([handle_list_tools]). *)
Definition required_args (name : string) : list string :=
  if String.eqb name "get_project_context" then ["project_path"]
  else if known_tool name then ["file_path"]
  else [].

(** The error text of a failed run of the operation [name]. *)
Definition tool_failure_text (name : string) (o : run_outcome) : string :=
  match o with
  | Completed _ _ err => err
  | RunTimeout _ =>
      if String.eqb name "add_types_to_file" then "Pyrefly autotype execution timed out"
      else if String.eqb name "type_check_file" then "Pyrefly check execution timed out"
      else "Pyrefly execution timed out after 60s"
  | RunRaises m => m
  end.

(** The handler raises only [ValueError], and only because a required
    argument is missing or the path it names does not exist. *)
Definition raises_only_for_listed_reasons : Prop :=
  forall (w : World) (name : string) (arguments : option (gmap string pyval)) (e : exn),
    snd (run (handle_call_tool w name arguments)) = inl e ->
    exists msg,
      e = ValueError msg
      /\ exists key,
          In key (required_args name)
          /\ (truthy (arg arguments key PNone) = false
              \/ path_exists w (arg arguments key PNone) = false).

(** Whenever the spawned process fails, the handler returns text, and the
    text carries the failure. *)
Definition process_failures_are_surfaced : Prop :=
  forall (w : World) (name : string) (arguments : option (gmap string pyval))
         (cmd : list pyval) (timeout : Z),
    In (cmd, timeout) (spawns (fst (run (handle_call_tool w name arguments)))) ->
    succeeded (subprocess_run w cmd timeout) = false ->
    exists text,
      snd (run (handle_call_tool w name arguments)) = inr [text]
      /\ PyStr.contains (tool_failure_text name (subprocess_run w cmd timeout)) text = true.

(** No call spawns a second process. *)
Definition never_retries : Prop :=
  forall (w : World) (name : string) (arguments : option (gmap string pyval)),
    (length (spawns (fst (run (handle_call_tool w name arguments)))) <= 1)%nat.

Definition failure_modes_as_listed : Prop :=
  raises_only_for_listed_reasons /\ process_failures_are_surfaced /\ never_retries.

(** A small project, and an output of the tool, to run the model on. *)
Definition sample_tree : fstree :=
  Listed [("src", Listed [(".git", Listed [] ["hook.py"]);
                          ("pkg", Listed [] ["m.py"; "notes.txt"])] ["a.py"]);
          ("__pycache__", Listed [] ["a.cpython.py"]);
          ("node_modules", Listed [("dep", Listed [] ["setup.py"])] []);
          ("link", Unlisted)]
         ["top.py"; "README"].

Definition sample_output : string :=
  "Function foo needs a type" +:+ nl +:+ "  variable x: type int  " +:+ nl
  +:+ "function variable type" +:+ nl +:+ "nothing to report".

(** * Vocabulary of the further statements *)

(** No name listed anywhere in the tree starts with a slash (a directory
    listing gives bare names). *)
Fixpoint plain_names (t : fstree) {struct t} : bool :=
  match t with
  | Unlisted => true
  | Listed dirs files =>
      forallb (fun file => negb (PyStr.startswith file "/")) files
      && (fix all_plain (ds : list (string * fstree)) : bool :=
            match ds with
            | [] => true
            | (d, sub) :: ds' =>
                negb (PyStr.startswith d "/") && plain_names sub && all_plain ds'
            end) dirs
  end.

(** What the walk of [get_project_context] raises, if it raises. *)
Definition walk_error (w : World) (project_path : pyval) : option string :=
  match project_path with
  | PStr s => match os_walk w s with inl m => Some m | inr _ => None end
  | v => Some ("expected str, bytes or os.PathLike object, not " +:+ type_name v)
  end.

(** The message with which [handle_call_tool] turns a request down, if it
    does. *)
Definition rejection (w : World) (name : string) (arguments : option (gmap string pyval))
  : option string :=
  let p := path_arg name arguments in
  if no_arguments arguments then Some "Missing arguments"
  else if negb (known_tool name) then Some ("Unknown tool: " +:+ name)
  else if negb (truthy p) then Some ("Missing " +:+ path_key name +:+ " argument")
  else if path_exists w p then None
  else if String.eqb name "get_project_context"
       then Some ("Project path not found: " +:+ py_str p)
       else Some ("File not found: " +:+ py_str p).

(** The process ran to completion. *)
Definition completed (o : run_outcome) : bool :=
  match o with
  | Completed _ _ _ => true
  | _ => false
  end.

(** The directory walks of a trace. *)
Definition walks (tr : list event) : list pyval :=
  flat_map (fun ev => match ev with EvWalk p => [p] | _ => [] end) tr.

(** The two texts of [analyze_python_file] for an analysis with the given
    lists and raw output. *)
Definition brief_summary (file_path : pyval) (functions variables : list string) : string :=
  "Pyrefly Analysis for " +:+ py_str file_path +:+ ":" +:+ nl
  +:+ "Functions needing types: " +:+ PyStr.of_nat (length functions) +:+ nl
  +:+ "Variables needing types: " +:+ PyStr.of_nat (length variables).

Definition detailed_summary (file_path : pyval) (functions variables : list string)
  (output : string) : string :=
  "Detailed Pyrefly Analysis for " +:+ py_str file_path +:+ ":" +:+ nl +:+ nl
  +:+ "Functions needing types (" +:+ PyStr.of_nat (length functions) +:+ "):" +:+ nl
  +:+ PyStr.join nl ((fun line => "  - " +:+ line) <$> functions) +:+ nl +:+ nl
  +:+ "Variables needing types (" +:+ PyStr.of_nat (length variables) +:+ "):" +:+ nl
  +:+ PyStr.join nl ((fun line => "  - " +:+ line) <$> variables) +:+ nl +:+ nl
  +:+ "Suggested types:" +:+ nl +:+ nl +:+ nl
  +:+ "Pyrefly Output:" +:+ nl +:+ output.

(** The analysis [analyze_file] returns in the world [w]. *)
Definition analysis_of (w : World) (file_path : pyval) : gmap string pyobj :=
  let rn := ByCommand (analysis_cmd file_path) 60 in
  let o := runner_outcome w rn in
  if succeeded o then parsed_analysis (captured_stdout o) file_path
  else error_analysis (PStr (failure_text rn o)) file_path.

(** The sentence a true [include_suggestions] adds to the prompt. *)
Definition suggestions_sentence : string :=
  nl +:+ nl
  +:+ "Please provide specific type annotations for the identified functions and variables.".

(** The text of the [analyze_typing_needs] prompt without that sentence. *)
Definition typing_needs_core (file_path : pyval) (analysis : gmap string pyobj) : string :=
  match typing_needs_text file_path analysis EmptyString with
  | inr text => text
  | inl _ => EmptyString
  end.

(** The text of the [type_improvement_plan] prompt, given the number of
    files found and the printed context. *)
Definition plan_text (project_path priority : pyval) (n_files : nat) (printed : string)
  : string :=
  "Create a type improvement plan for this Python project:" +:+ nl +:+ nl
  +:+ "Project: " +:+ py_str project_path +:+ nl
  +:+ "Priority: " +:+ py_str priority +:+ nl
  +:+ "Python files found: " +:+ PyStr.of_nat n_files +:+ nl +:+ nl
  +:+ "Project context:" +:+ nl
  +:+ printed +:+ nl +:+ nl
  +:+ "Please suggest a prioritized plan for adding type annotations, considering:" +:+ nl
  +:+ "1. Files with the lowest type coverage" +:+ nl
  +:+ "2. Critical functions and public APIs" +:+ nl
  +:+ "3. Dependencies between modules" +:+ nl
  +:+ "4. Incremental typing strategy".

(** One of the two letters, small or capital. *)
Definition either_case (small capital c : ascii) : Prop := c = small \/ c = capital.

(** The key under which [group_by_first_letter] files a word: its first
    character, lowercased; the empty word has none. *)
Definition first_letter (w : string) : option string :=
  match w with
  | EmptyString => None
  | String c _ => Some (String (PyStr.lower_char c) EmptyString)
  end.

Definition filed_under (k : string) (w : string) : bool :=
  bool_decide (first_letter w = Some k).
(** * Sanity checks of the text primitives *)

Example strip_ex : PyStr.strip "  a function's type 	" = "a function's type".
Proof. reflexivity. Qed.
Example split_ex : PyStr.split_lines ("a" +:+ String PyStr.newline "b" +:+ String PyStr.newline "")
                   = ["a"; "b"; ""].
Proof. reflexivity. Qed.
Example of_Z_ex : PyStr.of_Z 60 = "60" /\ PyStr.of_Z 0 = "0" /\ PyStr.of_Z (-3) = "-3".
Proof. repeat split; reflexivity. Qed.
Example lower_ex : PyStr.lower "FuncTION Type" = "function type".
Proof. reflexivity. Qed.
Example endswith_ex : PyStr.endswith "a.py" ".py" = true /\ PyStr.endswith ".py" ".py" = true /\ PyStr.endswith "a.pyc" ".py" = false.
Proof. repeat split; reflexivity. Qed.


(** * The model on sample inputs *)

Example parse_sample :
  exists analysis,
    _parse_pyrefly_analysis (PStr sample_output) (PStr "a.py") = inr analysis
    /\ analysis !! "functions_needing_types"
       = Some (OList [PStr "Function foo needs a type"; PStr "function variable type"])
    /\ analysis !! "variables_needing_types" = Some (OList [PStr "variable x: type int"]).
Proof. eexists. split; [reflexivity|]. split; vm_compute; reflexivity. Qed.

Example walk_sample :
  walk_collect sample_tree "proj" [] = ["proj/top.py"; "proj/src/a.py"; "proj/src/pkg/m.py"].
Proof. reflexivity. Qed.

Example project_context_sample :
  run (handle_call_tool (world_where true None (Completed 0 "0 errors" EmptyString) sample_tree)
         "get_project_context" (only_path "project_path" "proj"))
  = ([EvExists (PStr "proj"); EvSpawn (project_check_cmd (PStr "proj")) 60; EvWalk (PStr "proj")],
     inr ["Project Context for proj:" +:+ nl +:+ nl
          +:+ "Python files found: 3" +:+ nl
          +:+ "Pyrefly compatible: True" +:+ nl +:+ nl
          +:+ "Analysis summary:" +:+ nl +:+ "0 errors" +:+ nl +:+ nl
          +:+ "Files:" +:+ nl
          +:+ "  - proj/top.py" +:+ nl +:+ "  - proj/src/a.py" +:+ nl +:+ "  - proj/src/pkg/m.py"
          +:+ nl]).
Proof. vm_compute. reflexivity. Qed.

Example add_types_sample :
  run (handle_call_tool (world_where true None (Completed 2 EmptyString "parse error") Unlisted)
         "add_types_to_file" (only_path "file_path" "a.py"))
  = ([EvExists (PStr "a.py"); EvCopy (PStr "a.py") "a.py.backup";
      EvSpawn (analysis_cmd (PStr "a.py")) 60],
     inr ["Failed to add types to a.py" +:+ nl +:+ nl +:+ "Error:" +:+ nl +:+ "parse error"]).
Proof. vm_compute. reflexivity. Qed.

Example repr_sample :
  obj_str (OList [PStr "it's"; PStr "a\b"; PInt 3; PBool true; PNone])
  = "[" +:+ String PyRepr.dquote "it's" +:+ String PyRepr.dquote ", 'a\\b', 3, True, None]".
Proof. reflexivity. Qed.

(** * Text primitives against their declarative reading *)

Lemma startswith_spec (s p : string) :
  PyStr.startswith s p = true <-> exists post, s = p +:+ post.
Proof.
  revert s. induction p as [|a p IH]; intros s; simpl.
  - split; [intros _; now exists s | reflexivity].
  - destruct s as [|b s]; simpl.
    + split; [discriminate | intros [post H]; discriminate].
    + rewrite andb_true_iff, IH, Ascii.eqb_eq. split.
      * intros [-> [post ->]]. now exists post.
      * intros [post H]. injection H as -> ->. split; [reflexivity | now exists post].
Qed.

Lemma contains_spec (sub s : string) :
  PyStr.contains sub s = true <-> exists pre post, s = pre +:+ sub +:+ post.
Proof.
  induction s as [|c s IH].
  - simpl. rewrite orb_false_r, startswith_spec. split.
    + intros [post H]. now exists EmptyString, post.
    + intros [pre [post H]]. destruct pre; [now exists post | discriminate].
  - change (PyStr.contains sub (String c s))
      with (PyStr.startswith (String c s) sub || PyStr.contains sub s).
    rewrite orb_true_iff, startswith_spec, IH. split.
    + intros [[post H] | [pre [post H]]].
      * now exists EmptyString, post.
      * exists (String c pre), post. simpl. now rewrite H.
    + intros [pre [post H]]. destruct pre as [|c' pre].
      * left. now exists post.
      * right. simpl in H. injection H as -> ->. now exists pre, post.
Qed.

Lemma split_lines_nonempty (s : string) : PyStr.split_lines s <> [].
Proof.
  destruct s as [|c s]; simpl; [discriminate|].
  destruct (Ascii.eqb c PyStr.newline); [discriminate|].
  destruct (PyStr.split_lines s); discriminate.
Qed.

Lemma join_cons (sep p : string) (ps : list string) :
  ps <> [] -> PyStr.join sep (p :: ps) = p +:+ sep +:+ PyStr.join sep ps.
Proof. destruct ps; [contradiction | reflexivity]. Qed.

Lemma split_lines_join (s : string) : PyStr.join nl (PyStr.split_lines s) = s.
Proof.
  induction s as [|c s IH]; [reflexivity|]. simpl PyStr.split_lines.
  destruct (Ascii.eqb_spec c PyStr.newline) as [->|Hc].
  - rewrite join_cons by apply split_lines_nonempty. now rewrite IH.
  - pose proof (split_lines_nonempty s) as Hne.
    destruct (PyStr.split_lines s) as [|l ls]; [contradiction|].
    destruct ls as [|l' ls].
    + simpl in *. now rewrite IH.
    + rewrite join_cons in * by discriminate. rewrite <- IH. reflexivity.
Qed.

Lemma contains_nl_cons (c : ascii) (s : string) :
  PyStr.contains nl (String c s) = Ascii.eqb PyStr.newline c || PyStr.contains nl s.
Proof.
  change (PyStr.contains nl (String c s))
    with (PyStr.startswith (String c s) nl || PyStr.contains nl s).
  f_equal. unfold nl. simpl. now rewrite andb_true_r.
Qed.

Lemma split_lines_no_newline (s : string) :
  Forall (fun piece => PyStr.contains nl piece = false) (PyStr.split_lines s).
Proof.
  induction s as [|c s IH]; simpl.
  - now constructor.
  - destruct (Ascii.eqb c PyStr.newline) eqn:Hc.
    + now constructor.
    + pose proof (split_lines_nonempty s) as Hne.
      destruct (PyStr.split_lines s) as [|l ls]; [contradiction|].
      inversion IH as [|? ? Hl Hls]; subst. constructor; [|exact Hls].
      rewrite contains_nl_cons, Hl, Ascii.eqb_sym, Hc. reflexivity.
Qed.

Lemma lstrip_spec (s : string) :
  exists l, s = l +:+ PyStr.lstrip s /\ all_space l = true
            /\ starts_with_space (PyStr.lstrip s) = false.
Proof.
  induction s as [|c s [l [Hs [Hl Hh]]]]; simpl.
  - now exists EmptyString.
  - destruct (PyStr.is_space c) eqn:Hc.
    + exists (String c l). simpl. rewrite Hc, Hl. repeat split; [|assumption].
      change (String c s = String c (l +:+ PyStr.lstrip s)). now f_equal.
    + exists EmptyString. now repeat split.
Qed.

Lemma rstrip_all_space (s : string) : all_space s = true -> PyStr.rstrip s = EmptyString.
Proof.
  induction s as [|c s IH]; simpl; [reflexivity|].
  intros H. apply andb_true_iff in H. destruct H as [Hc Hs].
  now rewrite (IH Hs), Hc.
Qed.

Lemma rstrip_spec (s : string) :
  exists r, s = PyStr.rstrip s +:+ r /\ all_space r = true
            /\ ends_with_space (PyStr.rstrip s) = false
            /\ starts_with_space (PyStr.rstrip s)
               = starts_with_space s && negb (all_space s).
Proof.
  induction s as [|c s [r [Hs [Hr [He Hh]]]]].
  - now exists EmptyString.
  - simpl PyStr.rstrip. destruct (PyStr.rstrip s) as [|c' t] eqn:Hrs.
    + change (s = r) in Hs. subst r.
      destruct (PyStr.is_space c) eqn:Hc.
      * exists (String c s). simpl. rewrite Hc, Hr. now repeat split.
      * exists s. simpl. rewrite Hc. now repeat split.
    + exists r. split; [|split; [exact Hr|split; [exact He|]]].
      * change (String c s = String c (String c' t +:+ r)). now f_equal.
      * simpl. destruct (all_space s) eqn:Ha.
        -- apply rstrip_all_space in Ha. congruence.
        -- now rewrite andb_false_r, andb_true_r.
Qed.

Lemma strip_spec (s : string) :
  exists l r, s = l +:+ PyStr.strip s +:+ r
              /\ all_space l = true /\ all_space r = true
              /\ starts_with_space (PyStr.strip s) = false
              /\ ends_with_space (PyStr.strip s) = false.
Proof.
  unfold PyStr.strip.
  destruct (lstrip_spec s) as [l [Hl [Hal Hsl]]].
  destruct (rstrip_spec (PyStr.lstrip s)) as [r [Hr [Har [Her Hsr]]]].
  exists l, r. repeat split; try assumption.
  - now rewrite <- Hr.
  - rewrite Hsr, Hsl. reflexivity.
Qed.

(** * _parse_pyrefly_analysis *)

Lemma parse_loop (lines fs vs : list string) :
  fold_left parse_step lines (fs, vs)
  = (fs ++ List.filter is_function_line (PyStr.strip <$> lines),
     vs ++ List.filter (fun l => negb (is_function_line l) && is_variable_line l)
             (PyStr.strip <$> lines)).
Proof.
  revert fs vs. induction lines as [|line lines IH]; intros fs vs; simpl.
  - now rewrite !app_nil_r.
  - unfold parse_step at 2. simpl.
    destruct (is_function_line (PyStr.strip line)) eqn:Hf; simpl.
    + rewrite IH. now rewrite <- app_assoc.
    + destruct (is_variable_line (PyStr.strip line)) eqn:Hv; simpl.
      * rewrite IH. now rewrite <- app_assoc.
      * now rewrite IH.
Qed.

Lemma is_function_line_spec (line : string) :
  is_function_line line = true <-> has_both "function" line.
Proof.
  unfold is_function_line, has_both. now rewrite andb_true_iff, !contains_spec.
Qed.

Lemma is_variable_line_spec (line : string) :
  is_variable_line line = true <-> has_both "variable" line.
Proof.
  unfold is_variable_line, has_both. now rewrite andb_true_iff, !contains_spec.
Qed.

(** C1. For every output text, [_parse_pyrefly_analysis] splits it at the
    newline characters (the pieces hold no newline and, joined by newlines,
    give the output back), strips each piece of the whitespace at its two
    ends, and returns an analysis whose two lists are, in order, the
    stripped lines that pass the function test, and those that fail it and
    pass the variable test; the function test holds exactly when the
    lowercased line contains [function] and [type], the variable test when
    it contains [variable] and [type]; a line is in the function list iff it
    passes the function test, in the variable list iff it fails the function
    test and passes the variable test, and no line is in both. *)
Theorem parse_buckets_lines (output : string) (file_path : pyval) :
  let pieces := PyStr.split_lines output in
  let lines := PyStr.strip <$> pieces in
  let functions := List.filter is_function_line lines in
  let variables := List.filter (fun l => negb (is_function_line l) && is_variable_line l) lines in
  (PyStr.join nl pieces = output
   /\ Forall (fun piece => PyStr.contains nl piece = false) pieces
   /\ forall piece, exists l r,
         piece = l +:+ PyStr.strip piece +:+ r
         /\ all_space l = true /\ all_space r = true
         /\ starts_with_space (PyStr.strip piece) = false
         /\ ends_with_space (PyStr.strip piece) = false)
  /\ (exists analysis,
        _parse_pyrefly_analysis (PStr output) file_path = inr analysis
        /\ analysis !! "functions_needing_types" = Some (OList (PStr <$> functions))
        /\ analysis !! "variables_needing_types" = Some (OList (PStr <$> variables)))
  /\ (forall line, In line functions <-> In line lines /\ has_both "function" line)
  /\ (forall line, In line variables
                   <-> In line lines /\ ~ has_both "function" line /\ has_both "variable" line)
  /\ (forall line, ~ (In line functions /\ In line variables)).
Proof.
  intros pieces lines functions variables. split; [|split; [|split; [|split]]].
  - split; [apply split_lines_join|]. split; [apply split_lines_no_newline|].
    apply strip_spec.
  - eexists. split; [unfold _parse_pyrefly_analysis; simpl; reflexivity|].
    rewrite parse_loop. simpl. split.
    + rewrite lookup_insert_ne by discriminate. now rewrite lookup_insert_eq.
    + do 2 (rewrite lookup_insert_ne by discriminate). now rewrite lookup_insert_eq.
  - intros line. unfold functions. now rewrite filter_In, is_function_line_spec.
  - intros line. unfold variables.
    rewrite filter_In, andb_true_iff, negb_true_iff, is_variable_line_spec.
    rewrite <- is_function_line_spec, not_true_iff_false. tauto.
  - intros line [Hf Hv]. apply filter_In in Hf, Hv. destruct Hf as [_ Hf], Hv as [_ Hv].
    now rewrite Hf in Hv.
Qed.

(** * The three runners *)

Lemma runner_exec_trace (w : World) (rn : runner) (tr : list event) :
  runner_exec w rn tr
  = (tr ++ [EvSpawn (runner_cmd rn) (runner_timeout rn)],
     inr (outcome_record rn (runner_outcome w rn))).
Proof.
  destruct rn as [cmd timeout | file_path options | file_path];
    unfold runner_exec, run_pyrefly_command, run_pyrefly_autotype, run_pyrefly_check,
      try_except, py_subprocess_run, bind, emit, ret, raise, runner_outcome;
    simpl; destruct (subprocess_run w _ _); reflexivity.
Qed.

Lemma completed_record_success k_out k_err rc out err :
  completed_record k_out k_err rc out err !! "success" = Some (PBool (rc =? 0)%Z).
Proof. unfold completed_record. now rewrite lookup_insert_eq. Qed.

(** C2. When the spawned process runs to completion with exit code [rc], each
    of the three runners spawns once and returns a record whose exit-code
    entry is [rc] and whose success flag is the test [rc == 0]: the flag is
    true if the exit code is zero, and only then. *)
Theorem exit_code_zero_iff_success (w : World) (rn : runner) (rc : Z) (out err : string) :
  runner_outcome w rn = Completed rc out err ->
  exists r,
    run (runner_exec w rn) = ([EvSpawn (runner_cmd rn) (runner_timeout rn)], inr r)
    /\ r !! "returncode" = Some (PInt rc)
    /\ r !! "success" = Some (PBool (rc =? 0)%Z)
    /\ (rc = 0%Z -> r !! "success" = Some (PBool true))
    /\ (r !! "success" = Some (PBool true) -> rc = 0%Z).
Proof.
  intros Ho. unfold run. rewrite runner_exec_trace, Ho. simpl.
  eexists. split; [reflexivity|].
  rewrite completed_record_success.
  split; [|split; [reflexivity|split]].
  - unfold completed_record.
    destruct rn; simpl; now rewrite !lookup_insert_ne, lookup_insert_eq by discriminate.
  - now intros ->.
  - intros H. injection H as H. now apply Z.eqb_eq.
Qed.

Lemma exit_code_zero_iff_success_witness :
  exists r,
    run (runner_exec (world_where true None (Completed 0 "ok" EmptyString) Unlisted)
           (ByCheck (PStr "a.py")))
    = ([EvSpawn [PStr "uv"; PStr "run"; PStr "pyrefly"; PStr "check"; PStr "a.py"] 30], inr r)
    /\ r !! "returncode" = Some (PInt 0)
    /\ r !! "success" = Some (PBool true)
    /\ (0%Z = 0%Z -> r !! "success" = Some (PBool true))
    /\ (r !! "success" = Some (PBool true) -> 0%Z = 0%Z).
Proof.
  apply (exit_code_zero_iff_success
           (world_where true None (Completed 0 "ok" EmptyString) Unlisted)
           (ByCheck (PStr "a.py")) 0 "ok" EmptyString).
  reflexivity.
Defined.

Lemma failed_record_lookup (msg k : string) :
  failed_record msg !! k
  = if String.eqb k "success" then Some (PBool false)
    else if String.eqb k "error" then Some (PStr msg) else None.
Proof.
  unfold failed_record.
  destruct (String.eqb_spec k "success") as [->|Hs]; [now rewrite lookup_insert_eq|].
  rewrite lookup_insert_ne by congruence.
  destruct (String.eqb_spec k "error") as [->|He]; [now rewrite lookup_insert_eq|].
  now rewrite lookup_insert_ne by congruence.
Qed.

(** C3, as stated, fails: the record of a run that timed out has no
    captured stdout (nor stderr, nor exit code). *)
Lemma timed_out_record_lacks_fields : ~ every_record_has_all_fields.
Proof.
  intros H.
  destruct (H (world_where true None (RunTimeout "timed out") Unlisted)
              (ByCommand [PStr "uv"; PStr "run"; PStr "pyrefly"; PStr "check"; PStr "."] 60))
    as [r [Hr [_ [[v Hv] _]]]].
  unfold run in Hr. rewrite runner_exec_trace in Hr. simpl in Hr.
  injection Hr as <-. rewrite failed_record_lookup in Hv. discriminate.
Qed.

(** C3, amended. Every run spawns once and returns a record with a success
    flag. A run that completed returns exactly the four entries success
    flag, captured stdout, captured stderr and exit code (the type-checking
    variant files the two captures under [output] and [errors]) and no error
    string; a run that timed out or raised returns exactly two entries, a
    false success flag and the error string. *)
Theorem record_fields_by_outcome (w : World) (rn : runner) :
  exists r,
    run (runner_exec w rn) = ([EvSpawn (runner_cmd rn) (runner_timeout rn)], inr r)
    /\ is_Some (r !! "success")
    /\ match runner_outcome w rn with
       | Completed rc out err =>
           dom r = list_to_set ["success"; stdout_key rn; stderr_key rn; "returncode"]
           /\ r !! "success" = Some (PBool (rc =? 0)%Z)
           /\ r !! stdout_key rn = Some (PStr out)
           /\ r !! stderr_key rn = Some (PStr err)
           /\ r !! "returncode" = Some (PInt rc)
           /\ r !! "error" = None
       | RunTimeout _ =>
           dom r = list_to_set ["success"; "error"]
           /\ r !! "success" = Some (PBool false)
           /\ r !! "error" = Some (PStr (timeout_message rn))
       | RunRaises m =>
           dom r = list_to_set ["success"; "error"]
           /\ r !! "success" = Some (PBool false)
           /\ r !! "error" = Some (PStr m)
       end.
Proof.
  unfold run. rewrite runner_exec_trace. eexists. split; [reflexivity|].
  destruct (runner_outcome w rn) as [rc out err | m | m]; simpl.
  - split; [rewrite completed_record_success; eauto|].
    assert (Hk : (stdout_key rn = "stdout" /\ stderr_key rn = "stderr")
                 \/ (stdout_key rn = "output" /\ stderr_key rn = "errors"))
      by (destruct rn; simpl; auto).
    unfold completed_record.
    destruct Hk as [[-> ->] | [-> ->]];
      (split; [rewrite !dom_insert_L, dom_empty_L; simpl; set_solver|]);
      repeat split;
      repeat (first [rewrite lookup_insert_eq | rewrite lookup_insert_ne by discriminate]);
      try reflexivity; apply lookup_empty.
  - rewrite !failed_record_lookup. simpl. split; [eauto|].
    split; [|split; reflexivity].
    unfold failed_record. rewrite !dom_insert_L, dom_empty_L. simpl. set_solver.
  - rewrite !failed_record_lookup. simpl. split; [eauto|].
    split; [|split; reflexivity].
    unfold failed_record. rewrite !dom_insert_L, dom_empty_L. simpl. set_solver.
Qed.

(** * Reading the records *)

Lemma getitem_success (rn : runner) (o : run_outcome) :
  getitem (outcome_record rn o) "success" = inr (PBool (succeeded o)).
Proof.
  unfold getitem. destruct o; simpl.
  - now rewrite completed_record_success.
  - now rewrite failed_record_lookup.
  - now rewrite failed_record_lookup.
Qed.

Lemma lookup_stdout_key (rn : runner) (o : run_outcome) :
  outcome_record rn o !! stdout_key rn
  = match o with Completed _ out _ => Some (PStr out) | _ => None end.
Proof.
  destruct o; simpl.
  - unfold completed_record. rewrite lookup_insert_ne by (destruct rn; discriminate).
    now rewrite lookup_insert_eq.
  - rewrite failed_record_lookup. now destruct rn.
  - rewrite failed_record_lookup. now destruct rn.
Qed.

Lemma lookup_stderr_key (rn : runner) (o : run_outcome) :
  outcome_record rn o !! stderr_key rn
  = match o with Completed _ _ err => Some (PStr err) | _ => None end.
Proof.
  destruct o; simpl.
  - unfold completed_record.
    rewrite !lookup_insert_ne by (destruct rn; discriminate).
    now rewrite lookup_insert_eq.
  - rewrite failed_record_lookup. now destruct rn.
  - rewrite failed_record_lookup. now destruct rn.
Qed.

Lemma lookup_error (rn : runner) (o : run_outcome) :
  outcome_record rn o !! "error"
  = match o with Completed _ _ _ => None | _ => Some (PStr (failure_text rn o)) end.
Proof.
  destruct o; simpl.
  - unfold completed_record.
    rewrite !lookup_insert_ne by (destruct rn; discriminate). apply lookup_empty.
  - now rewrite failed_record_lookup.
  - now rewrite failed_record_lookup.
Qed.

(** [result.get('error', result.get('stderr', 'Unknown error'))] *)
Lemma error_or_stderr (rn : runner) (o : run_outcome) :
  stderr_key rn = "stderr" ->
  dict_get (outcome_record rn o) "error"
    (dict_get (outcome_record rn o) "stderr" (PStr "Unknown error"))
  = PStr (failure_text rn o).
Proof.
  intros Hk. unfold dict_get. rewrite lookup_error, <- Hk, lookup_stderr_key.
  now destruct o.
Qed.

(** * analyze_file *)

Lemma parse_text (output : string) (file_path : pyval) :
  _parse_pyrefly_analysis (PStr output) file_path = inr (parsed_analysis output file_path).
Proof. reflexivity. Qed.

Lemma analyze_file_trace (w : World) (file_path : pyval) (tr : list event) :
  let rn := ByCommand (analysis_cmd file_path) 60 in
  let o := runner_outcome w rn in
  analyze_file w file_path tr
  = (tr ++ [EvSpawn (analysis_cmd file_path) 60],
     inr (if succeeded o then parsed_analysis (captured_stdout o) file_path
          else error_analysis (PStr (failure_text rn o)) file_path)).
Proof.
  intros rn o. unfold analyze_file, try_except, bind, default_timeout.
  change (run_pyrefly_command w _ 60) with (runner_exec w rn).
  rewrite runner_exec_trace. fold o.
  unfold lift. rewrite getitem_success. simpl truthy.
  destruct (succeeded o) eqn:Hs.
  - change "stdout" with (stdout_key rn). unfold getitem. rewrite lookup_stdout_key.
    destruct o; try discriminate. simpl. reflexivity.
  - unfold ret. rewrite (error_or_stderr rn o) by reflexivity. reflexivity.
Qed.

(** C7. When the external run succeeds (the process completes with exit
    code zero), [analyze_file] spawns once and returns an analysis whose
    [pyrefly_output] entry is the captured stdout, unchanged, and whose
    [file_path] entry is the argument. *)
Theorem analyze_file_relays_stdout (w : World) (file_path : pyval) (out err : string) :
  subprocess_run w (analysis_cmd file_path) 60 = Completed 0 out err ->
  exists analysis,
    run (analyze_file w file_path) = ([EvSpawn (analysis_cmd file_path) 60], inr analysis)
    /\ analysis !! "pyrefly_output" = Some (OVal (PStr out))
    /\ analysis !! "file_path" = Some (OVal file_path).
Proof.
  intros Ho. unfold run. rewrite analyze_file_trace.
  unfold runner_outcome. simpl runner_cmd. simpl runner_timeout. rewrite Ho. simpl.
  eexists. split; [reflexivity|]. unfold parsed_analysis. split.
  - rewrite !lookup_insert_ne by discriminate. apply lookup_insert_eq.
  - apply lookup_insert_eq.
Qed.

Lemma analyze_file_relays_stdout_witness :
  exists analysis,
    run (analyze_file (world_where true None (Completed 0 "Function f needs type" EmptyString) Unlisted)
           (PStr "a.py"))
    = ([EvSpawn (analysis_cmd (PStr "a.py")) 60], inr analysis)
    /\ analysis !! "pyrefly_output" = Some (OVal (PStr "Function f needs type"))
    /\ analysis !! "file_path" = Some (OVal (PStr "a.py")).
Proof.
  apply (analyze_file_relays_stdout
           (world_where true None (Completed 0 "Function f needs type" EmptyString) Unlisted)
           (PStr "a.py") "Function f needs type" EmptyString).
  reflexivity.
Defined.

(** * The pruned walk *)

Lemma fstree_nested_ind (P : fstree -> Prop) :
  P Unlisted ->
  (forall dirs files, Forall (fun entry => P (snd entry)) dirs -> P (Listed dirs files)) ->
  forall t, P t.
Proof.
  intros HU HL. fix IH 1. intros [dirs files|]; [|exact HU].
  apply HL. induction dirs as [|[d sub] ds IHds]; constructor; [apply IH | exact IHds].
Qed.

Lemma endswith_spec (s suffix : string) :
  PyStr.endswith s suffix = true <-> exists stem, s = stem +:+ suffix.
Proof.
  induction s as [|c s IH].
  - change (PyStr.endswith EmptyString suffix) with (String.eqb EmptyString suffix || false).
    rewrite orb_false_r, String.eqb_eq. split.
    + intros <-. now exists EmptyString.
    + intros [stem H]. destruct stem; [exact H | discriminate].
  - change (PyStr.endswith (String c s) suffix)
      with (String.eqb (String c s) suffix || PyStr.endswith s suffix).
    rewrite orb_true_iff, String.eqb_eq, IH. split.
    + intros [<- | [stem ->]]; [now exists EmptyString | now exists (String c stem)].
    + intros [[|c' stem] H]; [now left | right].
      simpl in H. injection H as -> ->. now exists stem.
Qed.

Lemma keep_dir_spec (d : string) : keep_dir d = true <-> ~ pruned_name d.
Proof.
  unfold keep_dir, pruned_name.
  rewrite andb_true_iff, !negb_true_iff, orb_false_iff, !String.eqb_neq.
  rewrite <- not_true_iff_false, startswith_spec. tauto.
Qed.

Lemma collect_files_spec (root : string) (files acc : list string) :
  collect_files root files acc
  = acc ++ (path_join root <$> List.filter (fun file => PyStr.endswith file ".py") files).
Proof.
  unfold collect_files. revert acc.
  induction files as [|file files IH]; intros acc; simpl.
  - now rewrite app_nil_r.
  - destruct (PyStr.endswith file ".py"); rewrite IH; simpl; [|reflexivity].
    now rewrite <- app_assoc.
Qed.

Lemma walk_collect_spec (t : fstree) :
  forall root acc, walk_collect t root acc = acc ++ python_files_of t root.
Proof.
  induction t as [|dirs files IH] using fstree_nested_ind; intros root acc; simpl.
  - now rewrite app_nil_r.
  - rewrite collect_files_spec, app_assoc.
    generalize (acc ++ (path_join root <$> List.filter (fun file => PyStr.endswith file ".py") files)).
    induction IH as [|[d sub] ds Hsub _ IHds]; intros acc'; simpl.
    + now rewrite app_nil_r.
    + simpl in Hsub. destruct (keep_dir d).
      * rewrite Hsub, IHds, <- !app_assoc. reflexivity.
      * rewrite IHds. reflexivity.
Qed.

Lemma reaches_python_files_of (t : fstree) (root p : string) :
  reaches t root p -> In p (python_files_of t root).
Proof.
  induction 1 as [dirs files root file Hin Hpy | dirs files root d sub p Hin Hkeep _ IH]; simpl;
    apply in_app_iff.
  - left. apply in_map_iff. exists file. split; [reflexivity|].
    apply filter_In. split; [assumption | now apply endswith_spec].
  - right. apply keep_dir_spec in Hkeep.
    induction dirs as [|[d' sub'] ds IHds]; simpl in *; [contradiction|].
    apply in_app_iff. destruct Hin as [Heq | Hin].
    + injection Heq as -> ->. left. now rewrite Hkeep.
    + right. now apply IHds.
Qed.

Lemma python_files_of_reaches (t : fstree) :
  forall root p, In p (python_files_of t root) <-> reaches t root p.
Proof.
  intros root p. split; [|apply reaches_python_files_of]. revert root p.
  induction t as [|dirs files IH] using fstree_nested_ind; intros root p; simpl.
  - contradiction.
  - rewrite in_app_iff. intros [H | H].
    + apply in_map_iff in H. destruct H as [file [<- H]].
      apply filter_In in H. destruct H as [Hin Hpy].
      apply reaches_here; [exact Hin | now apply endswith_spec].
    + induction IH as [|[d sub] ds Hsub _ IHds]; simpl in H; [contradiction|].
      apply in_app_iff in H. destruct H as [H | H].
      * destruct (keep_dir d) eqn:Hk; [|contradiction].
        apply (reaches_below _ _ _ d sub); [now left | now apply keep_dir_spec|].
        now apply Hsub.
      * specialize (IHds H). inversion IHds; subst.
        -- now apply reaches_here.
        -- eapply reaches_below; [right|..]; eassumption.
Qed.

(** * get_project_context *)

Ltac map_lookup :=
  repeat first [ rewrite lookup_insert_eq
               | rewrite lookup_insert_ne by discriminate
               | rewrite lookup_empty ].

Lemma get_project_context_trace (w : World) (project_path : pyval) (tr : list event) :
  let o := runner_outcome w (ByCommand (project_check_cmd project_path) 60) in
  exists context,
    get_project_context w project_path tr
    = (tr ++ [EvSpawn (project_check_cmd project_path) 60; EvWalk project_path], inr context)
    /\ context !! "python_files"
       = Some (OList (PStr <$> python_files_of (walked_tree w project_path) (py_str project_path)))
    /\ context !! "pyrefly_compatible" = Some (OVal (PBool (succeeded o)))
    /\ context !! "analysis_summary"
       = Some (ODict (if succeeded o
                         && match project_path with
                            | PStr s => match os_walk w s with inr _ => true | inl _ => false end
                            | _ => false
                            end
                      then [("output", PStr (captured_stdout o));
                            ("total_files",
                             PInt (Z.of_nat (length (python_files_of (walked_tree w project_path)
                                                       (py_str project_path)))))]
                      else [])).
Proof.
  intros o. unfold get_project_context, or_record_error, try_except, bind, default_timeout.
  change (run_pyrefly_command w _ 60)
    with (runner_exec w (ByCommand (project_check_cmd project_path) 60)).
  rewrite runner_exec_trace. fold o. unfold lift.
  rewrite getitem_success. unfold py_walk_collect, bind, emit.
  rewrite <- app_assoc. simpl app.
  destruct project_path as [| b | z | s]; simpl;
    try (eexists; split; [reflexivity|]; rewrite andb_false_r; repeat split; now map_lookup).
  destruct (os_walk w s) as [m | t]; simpl.
  - eexists; split; [reflexivity|]. rewrite andb_false_r. repeat split; now map_lookup.
  - rewrite walk_collect_spec. simpl app. unfold ret.
    destruct (succeeded o) eqn:Hs; simpl.
    + change "stdout" with (stdout_key (ByCommand (project_check_cmd (PStr s)) 60)).
      unfold getitem. rewrite lookup_stdout_key.
      destruct o; try discriminate. simpl.
      eexists; split; [reflexivity|]. repeat split; now map_lookup.
    + eexists; split; [reflexivity|]. repeat split; now map_lookup.
Qed.

(** C9. For every project path, [get_project_context] runs the check once,
    then walks, and returns a context whose [python_files] entry lists, in
    walk order, exactly the paths reached from the project path without
    entering a pruned directory (a name that starts with a dot,
    [__pycache__] or [node_modules]) of the files whose name ends in [.py],
    and whose [pyrefly_compatible] entry is the success flag of that one
    check run. *)
Theorem project_context_lists_python_files (w : World) (project_path : pyval) :
  let o := subprocess_run w (project_check_cmd project_path) 60 in
  let found := python_files_of (walked_tree w project_path) (py_str project_path) in
  exists context,
    run (get_project_context w project_path)
    = ([EvSpawn (project_check_cmd project_path) 60; EvWalk project_path], inr context)
    /\ context !! "python_files" = Some (OList (PStr <$> found))
    /\ (forall p, In p found <-> reaches (walked_tree w project_path) (py_str project_path) p)
    /\ context !! "pyrefly_compatible" = Some (OVal (PBool (succeeded o)))
    /\ (exists r, run (run_pyrefly_command w (project_check_cmd project_path) 60)
                  = ([EvSpawn (project_check_cmd project_path) 60], inr r)
                  /\ r !! "success" = Some (PBool (succeeded o))).
Proof.
  intros o found.
  destruct (get_project_context_trace w project_path []) as [context [Hrun [Hf [Hc _]]]].
  exists context. split; [exact Hrun|]. split; [exact Hf|].
  split; [intros p; apply python_files_of_reaches|]. split; [exact Hc|].
  pose (rn := ByCommand (project_check_cmd project_path) 60).
  exists (outcome_record rn (runner_outcome w rn)). split.
  - apply (runner_exec_trace w rn []).
  - pose proof (getitem_success rn (runner_outcome w rn)) as H. unfold getitem in H.
    destruct (outcome_record rn (runner_outcome w rn) !! "success"); now inversion H.
Qed.

(** * handle_call_tool: the checks *)

Lemma handle_call_tool_unfold (w : World) (name : string) (arguments : option (gmap string pyval)) :
  handle_call_tool w name arguments
  = ltac:(let body := eval cbv delta [handle_call_tool] beta in
                        (handle_call_tool w name arguments) in exact body).
Proof. reflexivity. Qed.

Lemma no_arguments_get (arguments : option (gmap string pyval)) (k : string) (d : pyval) :
  no_arguments arguments = true -> dict_get (default ∅ arguments) k d = d.
Proof.
  unfold dict_get. destruct arguments as [a|]; simpl; [|intros _; now rewrite lookup_empty].
  intros H. apply bool_decide_eq_true in H.
  assert (Hk : a !! k = None) by (apply not_elem_of_dom; rewrite H; set_solver).
  now rewrite Hk.
Qed.

Lemma require_path_ok (w : World) (missing not_found : string) (p : pyval) (tr : list event) :
  truthy p = true -> path_exists w p = true ->
  require_path w missing not_found p tr = (tr ++ [EvExists p], inr tt).
Proof.
  intros Ht He. unfold require_path, py_exists, bind, emit, ret. now rewrite Ht, He.
Qed.

Lemma require_path_fails (w : World) (missing not_found : string) (p : pyval) (tr : list event) :
  truthy p && path_exists w p = false ->
  exists msg,
    require_path w missing not_found p tr
    = (tr ++ (if truthy p then [EvExists p] else []), inl (ValueError msg)).
Proof.
  intros H. unfold require_path, py_exists, bind, emit, ret, raise.
  destruct (truthy p); simpl in *.
  - rewrite H. simpl. eauto.
  - rewrite app_nil_r. eauto.
Qed.

Lemma handler_rejects (w : World) (name : string) (arguments : option (gmap string pyval)) :
  known_tool name = true ->
  truthy (path_arg name arguments) && path_exists w (path_arg name arguments) = false ->
  exists msg,
    run (handle_call_tool w name arguments)
    = (if truthy (path_arg name arguments) then [EvExists (path_arg name arguments)] else [],
       inl (ValueError msg)).
Proof.
  intros Hk Hp. unfold run. rewrite handle_call_tool_unfold.
  destruct (no_arguments arguments) eqn:Hn.
  - unfold path_arg. rewrite (no_arguments_get _ _ _ Hn). simpl. unfold raise. eauto.
  - unfold known_tool in Hk. unfold path_arg, path_key in *.
    destruct (String.eqb_spec name "analyze_python_file") as [->|_];
      [|destruct (String.eqb_spec name "add_types_to_file") as [->|_];
        [|destruct (String.eqb_spec name "type_check_file") as [->|_];
          [|destruct (String.eqb_spec name "get_project_context") as [->|_];
            [|discriminate]]]];
      simpl in Hp |- *; unfold bind;
      match goal with
      | |- context [require_path w ?a ?b ?p []] =>
          destruct (require_path_fails w a b p [] Hp) as [msg ->]
      end; eauto.
Qed.

(** * handle_call_tool: the four operations on an accepted request *)

Ltac dict_lookup := unfold dict_get; map_lookup.

Lemma analysis_text_total (detailed : bool) (file_path shown : pyval) (o : run_outcome) (e : pyval) :
  exists text,
    (if detailed
     then detailed_text shown (if succeeded o then parsed_analysis (captured_stdout o) file_path
                               else error_analysis e file_path)
     else brief_text shown (if succeeded o then parsed_analysis (captured_stdout o) file_path
                            else error_analysis e file_path))
    = inr text.
Proof.
  destruct detailed, (succeeded o);
    unfold detailed_text, brief_text, parsed_analysis, error_analysis;
    dict_lookup; simpl; eauto.
Qed.

Lemma brief_text_of_error (file_path shown e : pyval) :
  brief_text shown (error_analysis e file_path) = inr (empty_summary shown).
Proof. unfold brief_text, error_analysis. dict_lookup. reflexivity. Qed.

Lemma handle_analyze (w : World) (arguments : option (gmap string pyval)) :
  let file_path := arg arguments "file_path" PNone in
  no_arguments arguments = false -> truthy file_path = true -> path_exists w file_path = true ->
  exists text,
    run (handle_call_tool w "analyze_python_file" arguments)
    = ([EvExists file_path; EvSpawn (analysis_cmd file_path) 60], inr [text])
    /\ (succeeded (subprocess_run w (analysis_cmd file_path) 60) = false ->
        truthy (arg arguments "detailed" (PBool false)) = false ->
        text = empty_summary file_path).
Proof.
  unfold arg. cbv zeta. set (file_path := dict_get (default ∅ arguments) "file_path" PNone).
  intros Hn Ht He. unfold run. rewrite handle_call_tool_unfold, Hn.
  change (String.eqb "analyze_python_file" "analyze_python_file") with true.
  cbv beta iota zeta. fold file_path.
  unfold bind. rewrite require_path_ok by assumption.
  rewrite analyze_file_trace. simpl app. unfold lift, ret.
  set (rn := ByCommand (analysis_cmd file_path) 60).
  set (o := runner_outcome w rn).
  destruct (analysis_text_total (truthy (dict_get (default ∅ arguments) "detailed" (PBool false)))
              file_path file_path o (PStr (failure_text rn o))) as [text Htext].
  rewrite Htext. exists text. split; [reflexivity|].
  intros Hs Hd. change (succeeded o = false) in Hs. rewrite Hs, Hd in Htext.
  rewrite brief_text_of_error in Htext. now injection Htext.
Qed.

Lemma autotype_cmd_of_handler (file_path aggressive safe_mode : pyval) :
  autotype_cmd file_path (Some (handler_options aggressive safe_mode)) = analysis_cmd file_path.
Proof.
  unfold autotype_cmd, handler_options. dict_lookup. simpl truthy.
  now rewrite andb_false_r.
Qed.

Lemma handle_add_types (w : World) (arguments : option (gmap string pyval)) :
  let file_path := arg arguments "file_path" PNone in
  let backup := arg arguments "backup" (PBool true) in
  let rn := ByAutotype file_path
              (Some (handler_options (arg arguments "aggressive" (PBool false))
                       (arg arguments "safe_mode" (PBool true)))) in
  let o := subprocess_run w (analysis_cmd file_path) 60 in
  no_arguments arguments = false -> truthy file_path = true -> path_exists w file_path = true ->
  run (handle_call_tool w "add_types_to_file" arguments)
  = if truthy backup then
      match shutil_copy2 w file_path (backup_path file_path) with
      | Some m =>
          ([EvExists file_path; EvCopy file_path (backup_path file_path)],
           inr ["Failed to create backup: " +:+ m])
      | None =>
          ([EvExists file_path; EvCopy file_path (backup_path file_path);
            EvSpawn (analysis_cmd file_path) 60],
           inr [add_types_text file_path rn o])
      end
    else ([EvExists file_path; EvSpawn (analysis_cmd file_path) 60],
          inr [add_types_text file_path rn o]).
Proof.
  unfold arg. cbv zeta. set (file_path := dict_get (default ∅ arguments) "file_path" PNone).
  intros Hn Ht He. unfold run. rewrite handle_call_tool_unfold, Hn.
  change (String.eqb "add_types_to_file" "analyze_python_file") with false.
  change (String.eqb "add_types_to_file" "add_types_to_file") with true.
  cbv beta iota zeta. fold file_path. fold (backup_path file_path).
  match goal with
  | |- context [run_pyrefly_autotype w file_path (Some ?opts)] =>
      change opts with (handler_options (dict_get (default ∅ arguments) "aggressive" (PBool false))
                          (dict_get (default ∅ arguments) "safe_mode" (PBool true)));
      change (run_pyrefly_autotype w file_path (Some opts))
        with (runner_exec w (ByAutotype file_path (Some opts)))
  end.
  set (rn := ByAutotype file_path _).
  assert (Hrun : forall tr,
             (let* result := runner_exec w rn in
              let* success := lift (getitem result "success") in
              if truthy success then
                let* stdout := lift (getitem result "stdout") in
                ret ["Successfully added types to " +:+ py_str file_path +:+ nl +:+ nl
                     +:+ "Output:" +:+ nl +:+ py_str stdout]
              else
                ret ["Failed to add types to " +:+ py_str file_path +:+ nl +:+ nl
                     +:+ "Error:" +:+ nl
                     +:+ py_str (dict_get result "error"
                                   (dict_get result "stderr" (PStr "Unknown error")))]) tr
             = (tr ++ [EvSpawn (analysis_cmd file_path) 60],
                inr [add_types_text file_path rn
                       (subprocess_run w (analysis_cmd file_path) 60)])).
  { intros tr. unfold bind. rewrite runner_exec_trace. unfold lift.
    rewrite getitem_success. simpl truthy.
    assert (Hcmd : runner_cmd rn = analysis_cmd file_path)
      by apply autotype_cmd_of_handler.
    unfold runner_outcome. rewrite Hcmd. change (runner_timeout rn) with 60%Z.
    set (o := subprocess_run w (analysis_cmd file_path) 60).
    unfold add_types_text. destruct (succeeded o) eqn:Hs.
    - change "stdout" with (stdout_key rn). unfold getitem. rewrite lookup_stdout_key.
      destruct o; try discriminate. reflexivity.
    - unfold ret. rewrite (error_or_stderr rn o) by reflexivity. reflexivity. }
  unfold bind at 1. rewrite require_path_ok by assumption. simpl app.
  destruct (truthy (dict_get (default ∅ arguments) "backup" (PBool true))).
  - unfold bind at 1. unfold try_except, py_copy2, bind at 1 2, emit, ret, raise. simpl app.
    destruct (shutil_copy2 w file_path (backup_path file_path)) as [m|]; [reflexivity|].
    apply Hrun.
  - unfold bind at 1, ret at 1. apply Hrun.
Qed.

Lemma handle_type_check (w : World) (arguments : option (gmap string pyval)) :
  let file_path := arg arguments "file_path" PNone in
  no_arguments arguments = false -> truthy file_path = true -> path_exists w file_path = true ->
  run (handle_call_tool w "type_check_file" arguments)
  = ([EvExists file_path; EvSpawn (check_cmd file_path) 30],
     match subprocess_run w (check_cmd file_path) 30 with
     | Completed rc out err => inr [type_check_text file_path rc out err]
     | _ => inl (KeyError "output")
     end).
Proof.
  unfold arg. cbv zeta. set (file_path := dict_get (default ∅ arguments) "file_path" PNone).
  intros Hn Ht He. unfold run. rewrite handle_call_tool_unfold, Hn.
  change (String.eqb "type_check_file" "analyze_python_file") with false.
  change (String.eqb "type_check_file" "add_types_to_file") with false.
  change (String.eqb "type_check_file" "type_check_file") with true.
  cbv beta iota zeta. fold file_path.
  unfold bind. rewrite require_path_ok by assumption. simpl app.
  change (run_pyrefly_check w file_path) with (runner_exec w (ByCheck file_path)).
  rewrite runner_exec_trace. simpl app. unfold lift.
  rewrite getitem_success. simpl truthy.
  unfold runner_outcome. change (runner_cmd (ByCheck file_path)) with (check_cmd file_path).
  change (runner_timeout (ByCheck file_path)) with 30%Z.
  change "output" with (stdout_key (ByCheck file_path)).
  change "errors" with (stderr_key (ByCheck file_path)).
  unfold getitem, dict_get. rewrite lookup_stdout_key, lookup_stderr_key.
  destruct (subprocess_run w (check_cmd file_path) 30) as [rc out err | m | m]; simpl;
    try reflexivity.
  unfold type_check_text. now destruct (rc =? 0)%Z.
Qed.

Lemma bullet_strings (files : list string) :
  bullet <$> (PStr <$> files) = (fun file => "  - " +:+ file) <$> files.
Proof. rewrite <- list_fmap_compose. reflexivity. Qed.

Lemma handle_project_context (w : World) (arguments : option (gmap string pyval)) :
  let project_path := arg arguments "project_path" PNone in
  no_arguments arguments = false -> truthy project_path = true ->
  path_exists w project_path = true ->
  run (handle_call_tool w "get_project_context" arguments)
  = ([EvExists project_path; EvSpawn (project_check_cmd project_path) 60; EvWalk project_path],
     inr [project_text project_path (subprocess_run w (project_check_cmd project_path) 60)
            (walk_completes w project_path)
            (python_files_of (walked_tree w project_path) (py_str project_path))]).
Proof.
  unfold arg. cbv zeta. set (project_path := dict_get (default ∅ arguments) "project_path" PNone).
  intros Hn Ht He. unfold run. rewrite handle_call_tool_unfold, Hn.
  change (String.eqb "get_project_context" "analyze_python_file") with false.
  change (String.eqb "get_project_context" "add_types_to_file") with false.
  change (String.eqb "get_project_context" "type_check_file") with false.
  change (String.eqb "get_project_context" "get_project_context") with true.
  cbv beta iota zeta. fold project_path.
  unfold bind. rewrite require_path_ok by assumption. simpl app.
  destruct (get_project_context_trace w project_path [EvExists project_path])
    as [context [-> [Hfiles [Hcompat Hsummary]]]].
  simpl app. unfold lift, context_text, dict_get.
  rewrite Hfiles, Hcompat, Hsummary. simpl py_len. simpl py_take. simpl py_iter.
  simpl res_bind. unfold ret.
  rewrite length_fmap, <- fmap_take, bullet_strings.
  unfold project_text, runner_outcome. simpl runner_cmd. simpl runner_timeout.
  fold (walk_completes w project_path).
  set (o := subprocess_run w (project_check_cmd project_path) 60).
  destruct (succeeded o), (walk_completes w project_path); reflexivity.
Qed.

(** * handle_call_tool: every call *)

Lemma known_tool_cases (name : string) :
  known_tool name = true ->
  name = "analyze_python_file" \/ name = "add_types_to_file"
  \/ name = "type_check_file" \/ name = "get_project_context".
Proof.
  unfold known_tool. rewrite !orb_true_iff, !String.eqb_eq. tauto.
Qed.

Lemma handler_unknown_tool (w : World) (name : string) (arguments : option (gmap string pyval)) :
  known_tool name = false ->
  run (handle_call_tool w name arguments)
  = ([], inl (ValueError (if no_arguments arguments then "Missing arguments"
                          else "Unknown tool: " +:+ name))).
Proof.
  unfold known_tool. rewrite !orb_false_iff. intros [[[H1 H2] H3] H4].
  unfold run. rewrite handle_call_tool_unfold, H1, H2, H3, H4.
  now destruct (no_arguments arguments).
Qed.

Lemma truthy_path_has_arguments (name : string) (arguments : option (gmap string pyval)) :
  truthy (path_arg name arguments) = true -> no_arguments arguments = false.
Proof.
  intros H. destruct (no_arguments arguments) eqn:Hn; [|reflexivity].
  unfold path_arg in H. now rewrite (no_arguments_get _ _ _ Hn) in H.
Qed.

Lemma handler_trace (w : World) (name : string) (arguments : option (gmap string pyval)) :
  fst (run (handle_call_tool w name arguments)) = expected_trace w name arguments.
Proof.
  unfold expected_trace.
  destruct (known_tool name) eqn:Hk; [|now rewrite handler_unknown_tool].
  destruct (truthy (path_arg name arguments)) eqn:Ht; simpl negb; cbv iota.
  2:{ destruct (handler_rejects w name arguments Hk) as [msg ->];
      [now rewrite Ht | now rewrite Ht]. }
  destruct (path_exists w (path_arg name arguments)) eqn:He; simpl negb; cbv iota.
  2:{ destruct (handler_rejects w name arguments Hk) as [msg ->];
      [now rewrite Ht, He | now rewrite Ht]. }
  pose proof (truthy_path_has_arguments _ _ Ht) as Hn.
  destruct (known_tool_cases name Hk) as [-> | [-> | [-> | ->]]].
  - destruct (handle_analyze w arguments Hn Ht He) as [text [-> _]]. reflexivity.
  - rewrite (handle_add_types w arguments Hn Ht He).
    unfold backup_fails, path_arg, path_key, arg. simpl String.eqb. cbv iota.
    destruct (truthy (dict_get (default ∅ arguments) "backup" (PBool true))); simpl;
      [|reflexivity].
    now destruct (shutil_copy2 w _ _).
  - rewrite (handle_type_check w arguments Hn Ht He). reflexivity.
  - rewrite (handle_project_context w arguments Hn Ht He). reflexivity.
Qed.

Lemma handler_spawns (w : World) (name : string) (arguments : option (gmap string pyval)) :
  spawns (fst (run (handle_call_tool w name arguments)))
  = if accepted w name arguments
       && negb (String.eqb name "add_types_to_file" && backup_fails w arguments)
    then [(tool_cmd name (path_arg name arguments), tool_timeout name)]
    else [].
Proof.
  rewrite handler_trace. unfold expected_trace, accepted.
  destruct (known_tool name); [|reflexivity].
  destruct (truthy (path_arg name arguments)); [|reflexivity].
  destruct (path_exists w (path_arg name arguments)); [|reflexivity].
  simpl negb. cbv iota. simpl andb at 1.
  destruct (String.eqb name "add_types_to_file").
  - destruct (truthy (arg arguments "backup" (PBool true))),
      (backup_fails w arguments); reflexivity.
  - now destruct (String.eqb name "get_project_context").
Qed.

Lemma handler_copies (w : World) (name : string) (arguments : option (gmap string pyval)) :
  copies (fst (run (handle_call_tool w name arguments)))
  = if accepted w name arguments && String.eqb name "add_types_to_file"
       && truthy (arg arguments "backup" (PBool true))
    then [(path_arg name arguments, backup_path (path_arg name arguments))]
    else [].
Proof.
  rewrite handler_trace. unfold expected_trace, accepted.
  destruct (known_tool name); [|reflexivity].
  destruct (truthy (path_arg name arguments)); [|reflexivity].
  destruct (path_exists w (path_arg name arguments)); [|reflexivity].
  simpl negb. cbv iota. simpl andb at 1.
  destruct (String.eqb name "add_types_to_file").
  - destruct (truthy (arg arguments "backup" (PBool true))),
      (backup_fails w arguments); reflexivity.
  - now destruct (String.eqb name "get_project_context").
Qed.

(** C5. For the four operations, [handle_call_tool] checks first that the
    path argument is there and then that the path exists: whatever the
    call, its first interaction with the system, if it has any, is that
    existence check; and if either check fails it raises [ValueError]
    without having spawned a process or copied a file. *)
Theorem invalid_request_raises_before_any_effect
  (w : World) (name : string) (arguments : option (gmap string pyval)) :
  known_tool name = true ->
  let p := path_arg name arguments in
  let checks := if truthy p then [EvExists p] else [] in
  (exists rest, fst (run (handle_call_tool w name arguments)) = checks ++ rest)
  /\ (truthy p && path_exists w p = false ->
      exists msg,
        run (handle_call_tool w name arguments) = (checks, inl (ValueError msg))
        /\ spawns (fst (run (handle_call_tool w name arguments))) = []
        /\ copies (fst (run (handle_call_tool w name arguments))) = []).
Proof.
  intros Hk p checks. subst p checks. split.
  - rewrite handler_trace. unfold expected_trace. rewrite Hk. simpl andb.
    destruct (truthy (path_arg name arguments)); simpl; [|now exists []].
    destruct (path_exists w (path_arg name arguments)); simpl; eauto.
  - intros Hp. destruct (handler_rejects w name arguments Hk Hp) as [msg Hrun].
    exists msg. split; [exact Hrun|].
    rewrite handler_spawns, handler_copies. unfold accepted.
    destruct (truthy (path_arg name arguments)), (path_exists w (path_arg name arguments));
      try discriminate Hp; rewrite ?andb_false_r; now split.
Qed.

Lemma invalid_request_raises_before_any_effect_witness :
  exists msg,
    run (handle_call_tool (world_where false None (Completed 0 "ok" EmptyString) Unlisted)
           "add_types_to_file" (only_path "file_path" "missing.py"))
    = ([EvExists (PStr "missing.py")], inl (ValueError msg)).
Proof.
  destruct (invalid_request_raises_before_any_effect
              (world_where false None (Completed 0 "ok" EmptyString) Unlisted)
              "add_types_to_file" (only_path "file_path" "missing.py") eq_refl)
    as [_ H].
  destruct (H eq_refl) as [msg [Hrun _]]. exists msg. exact Hrun.
Defined.

Lemma autotype_cmd_verbose (file_path : pyval) (options : option (gmap string pyval)) :
  autotype_cmd file_path options
  = analysis_cmd file_path ++ (if asks_verbose options then [PStr "--verbose"] else []).
Proof.
  unfold autotype_cmd, asks_verbose, analysis_cmd. destruct options as [o|]; [|reflexivity].
  destruct (truthy (dict_get o "verbose" PNone)) eqn:Hv.
  - assert (Hdom : bool_decide (dom o = (∅ : gset string)) = false).
    { apply bool_decide_eq_false. intros Hd. unfold dict_get in Hv.
      assert (Hk : o !! "verbose" = None) by (apply not_elem_of_dom; rewrite Hd; set_solver).
      now rewrite Hk in Hv. }
    now rewrite Hdom.
  - now rewrite andb_false_r.
Qed.

(** C6. The command of the add-types operation is the fixed program name
    and flags plus the path: [run_pyrefly_autotype] spawns, with a timeout
    of 60, [uv run pyrefly autotype file_path], followed by [--verbose]
    exactly when its options carry a true [verbose] entry; the options
    [handle_call_tool] builds carry none, whatever [aggressive] and
    [safe_mode] are, so every process the operation spawns has exactly that
    five-word command. *)
Theorem add_types_command_is_fixed
  (w : World) (arguments : option (gmap string pyval))
  (file_path aggressive safe_mode : pyval) (options : option (gmap string pyval)) :
  autotype_cmd file_path (Some (handler_options aggressive safe_mode))
  = [PStr "uv"; PStr "run"; PStr "pyrefly"; PStr "autotype"; file_path]
  /\ autotype_cmd file_path options
     = [PStr "uv"; PStr "run"; PStr "pyrefly"; PStr "autotype"; file_path]
       ++ (if asks_verbose options then [PStr "--verbose"] else [])
  /\ fst (run (run_pyrefly_autotype w file_path options))
     = [EvSpawn (autotype_cmd file_path options) 60]
  /\ spawns (fst (run (handle_call_tool w "add_types_to_file" arguments)))
     = if accepted w "add_types_to_file" arguments && negb (backup_fails w arguments)
       then [([PStr "uv"; PStr "run"; PStr "pyrefly"; PStr "autotype";
               arg arguments "file_path" PNone], 60%Z)]
       else [].
Proof.
  split; [apply autotype_cmd_of_handler|]. split; [apply autotype_cmd_verbose|]. split.
  - unfold run. change (run_pyrefly_autotype w file_path options)
      with (runner_exec w (ByAutotype file_path options)).
    now rewrite runner_exec_trace.
  - rewrite handler_spawns. reflexivity.
Qed.

(** C8. Every call of [handle_call_tool] spawns at most one process: none
    when the request is rejected or the backup copy fails, else exactly one,
    with a timeout of 30 seconds for [type_check_file] and of 60 seconds for
    the other operations. Each runner makes one blocking call and builds its
    record from how that call ended (completion, timeout or another
    exception): [run_pyrefly_autotype] with a timeout of 60,
    [run_pyrefly_check] of 30, [run_pyrefly_command] of the timeout it is
    given, which is 60 in [analyze_file] and [get_project_context]. *)
Theorem at_most_one_process_per_call
  (w : World) (name : string) (arguments : option (gmap string pyval)) (rn : runner)
  (path : pyval) :
  let spawned := spawns (fst (run (handle_call_tool w name arguments))) in
  (length spawned <= 1)%nat
  /\ spawned
     = (if accepted w name arguments
           && negb (String.eqb name "add_types_to_file" && backup_fails w arguments)
        then [(tool_cmd name (path_arg name arguments),
               if String.eqb name "type_check_file" then 30%Z else 60%Z)]
        else [])
  /\ run (runner_exec w rn)
     = ([EvSpawn (runner_cmd rn)
           match rn with
           | ByCommand _ timeout => timeout
           | ByAutotype _ _ => 60%Z
           | ByCheck _ => 30%Z
           end],
        inr (outcome_record rn (subprocess_run w (runner_cmd rn) (runner_timeout rn))))
  /\ spawns (fst (run (analyze_file w path))) = [(analysis_cmd path, 60%Z)]
  /\ spawns (fst (run (get_project_context w path))) = [(project_check_cmd path, 60%Z)].
Proof.
  intros spawned. subst spawned. rewrite handler_spawns.
  split; [|split; [|split; [|split]]].
  - destruct (_ && _); simpl; lia.
  - reflexivity.
  - unfold run. rewrite runner_exec_trace. now destruct rn.
  - unfold run. rewrite analyze_file_trace. reflexivity.
  - destruct (get_project_context_trace w path []) as [context [Hrun _]].
    unfold run. rewrite Hrun. reflexivity.
Qed.

Lemma length_append (s t : string) :
  String.length (s +:+ t) = (String.length s + String.length t)%nat.
Proof. induction s as [|c s IH]; simpl; [reflexivity | now rewrite IH]. Qed.

Lemma append_assoc (s t u : string) : (s +:+ t) +:+ u = s +:+ t +:+ u.
Proof.
  induction s as [|c s IH]; [reflexivity|].
  change (String c ((s +:+ t) +:+ u) = String c (s +:+ t +:+ u)). now f_equal.
Qed.

Lemma backup_path_differs (file_path : pyval) : backup_path file_path <> py_str file_path.
Proof.
  unfold backup_path. intros H. apply (f_equal String.length) in H.
  rewrite length_append in H. simpl in H. lia.
Qed.

(** C10. In [add_types_to_file] with a true [backup] option, once the
    checks have passed the handler copies the file to the path with
    [.backup] appended, which is another path, before it spawns anything;
    if the copy raises, it returns the text [Failed to create backup: ...]
    and spawns nothing, so the only file the call writes is the backup; if
    the copy succeeds, the one spawn comes after it. *)
Theorem failed_backup_stops_add_types (w : World) (arguments : option (gmap string pyval)) :
  let file_path := arg arguments "file_path" PNone in
  truthy file_path = true ->
  path_exists w file_path = true ->
  truthy (arg arguments "backup" (PBool true)) = true ->
  backup_path file_path = py_str file_path +:+ ".backup"
  /\ backup_path file_path <> py_str file_path
  /\ match shutil_copy2 w file_path (backup_path file_path) with
     | Some m =>
         run (handle_call_tool w "add_types_to_file" arguments)
         = ([EvExists file_path; EvCopy file_path (backup_path file_path)],
            inr ["Failed to create backup: " +:+ m])
     | None =>
         exists text,
           run (handle_call_tool w "add_types_to_file" arguments)
           = ([EvExists file_path; EvCopy file_path (backup_path file_path);
               EvSpawn [PStr "uv"; PStr "run"; PStr "pyrefly"; PStr "autotype"; file_path] 60],
              inr [text])
     end.
Proof.
  intros file_path Ht He Hb. split; [reflexivity|]. split; [apply backup_path_differs|].
  pose proof (truthy_path_has_arguments "add_types_to_file" arguments Ht) as Hn.
  rewrite (handle_add_types w arguments Hn Ht He). fold file_path. rewrite Hb.
  destruct (shutil_copy2 w file_path (backup_path file_path)); eauto.
Qed.

Lemma failed_backup_stops_add_types_witness :
  run (handle_call_tool
         (world_where true (Some "Permission denied") (Completed 0 "ok" EmptyString) Unlisted)
         "add_types_to_file" (only_path "file_path" "a.py"))
  = ([EvExists (PStr "a.py"); EvCopy (PStr "a.py") "a.py.backup"],
     inr ["Failed to create backup: Permission denied"]).
Proof.
  destruct (failed_backup_stops_add_types
              (world_where true (Some "Permission denied") (Completed 0 "ok" EmptyString) Unlisted)
              (only_path "file_path" "a.py") eq_refl eq_refl eq_refl)
    as [_ [_ H]].
  exact H.
Defined.

(** * handle_call_tool: failures *)

(** C4, as stated, fails: a call that names no known operation raises
    [ValueError] although no argument is missing and every path exists. *)
Lemma unknown_tool_is_another_failure : ~ failure_modes_as_listed.
Proof.
  intros [Hraise _].
  destruct (Hraise (world_where true None (Completed 0 "ok" EmptyString) Unlisted)
              "rename_symbol" (only_path "file_path" "a.py")
              (ValueError "Unknown tool: rename_symbol") eq_refl)
    as [msg [_ [key [Hkey _]]]].
  exact Hkey.
Qed.

(** Two more ways in which a failed process is not returned as text. *)
Example analysis_summary_hides_failure :
  run (handle_call_tool (world_where true None (RunTimeout "expired") Unlisted)
         "analyze_python_file" (only_path "file_path" "a.py"))
  = ([EvExists (PStr "a.py"); EvSpawn (analysis_cmd (PStr "a.py")) 60],
     inr ["Pyrefly Analysis for a.py:" +:+ nl +:+ "Functions needing types: 0" +:+ nl
          +:+ "Variables needing types: 0"]).
Proof. vm_compute. reflexivity. Qed.

Example type_check_timeout_raises_key_error :
  run (handle_call_tool (world_where true None (RunTimeout "expired") Unlisted)
         "type_check_file" (only_path "file_path" "a.py"))
  = ([EvExists (PStr "a.py"); EvSpawn (check_cmd (PStr "a.py")) 30], inl (KeyError "output")).
Proof. vm_compute. reflexivity. Qed.

Lemma accepted_has_arguments (w : World) (name : string) (arguments : option (gmap string pyval)) :
  accepted w name arguments = true ->
  known_tool name = true /\ no_arguments arguments = false
  /\ truthy (path_arg name arguments) = true
  /\ path_exists w (path_arg name arguments) = true.
Proof.
  unfold accepted. rewrite !andb_true_iff. intros [[Hk Ht] He].
  repeat split; try assumption. now apply truthy_path_has_arguments in Ht.
Qed.

(** C4, amended. A call raises [ValueError], having spawned and copied
    nothing, when the request is not accepted: the arguments are missing or
    empty, the operation is unknown, the path argument is missing or empty,
    or the path does not exist. An accepted call returns one text:
    [add_types_to_file] the backup failure, or else the outcome of the run,
    which ends with the error string or the stderr of a failed run;
    [type_check_file], when the run completed, the captured stdout and,
    after a non-zero exit, the stderr; [get_project_context] its summary,
    which shows the success flag; [analyze_python_file] its summary, which
    is the one with both counts zero when the run failed and no detail was
    asked for. No call spawns a second process. What [type_check_file]
    answers when its process did not complete is not stated. *)
Theorem handler_failure_modes
  (w : World) (name : string) (arguments : option (gmap string pyval)) :
  let p := path_arg name arguments in
  let h := run (handle_call_tool w name arguments) in
  (length (spawns (fst h)) <= 1)%nat
  /\ if negb (accepted w name arguments) then
       (exists msg, snd h = inl (ValueError msg))
       /\ spawns (fst h) = [] /\ copies (fst h) = []
       /\ (if known_tool name then True
           else snd h = inl (ValueError (if no_arguments arguments then "Missing arguments"
                                         else "Unknown tool: " +:+ name)))
     else if String.eqb name "add_types_to_file" then
       let rn := ByAutotype p (Some (handler_options (arg arguments "aggressive" (PBool false))
                                       (arg arguments "safe_mode" (PBool true)))) in
       let o := subprocess_run w (analysis_cmd p) 60 in
       snd h = inr [match (if truthy (arg arguments "backup" (PBool true))
                           then shutil_copy2 w p (backup_path p) else None) with
                    | Some m => "Failed to create backup: " +:+ m
                    | None => add_types_text p rn o
                    end]
       /\ (if succeeded o then True
           else exists lead, add_types_text p rn o = lead +:+ tool_failure_text name o)
     else if String.eqb name "type_check_file" then
       match subprocess_run w (check_cmd p) 30 with
       | Completed rc out err =>
           snd h = inr [type_check_text p rc out err]
           /\ (if (rc =? 0)%Z then True
               else exists lead, type_check_text p rc out err = lead +:+ out +:+ nl +:+ err)
       | _ => True
       end
     else if String.eqb name "get_project_context" then
       snd h = inr [project_text p (subprocess_run w (project_check_cmd p) 60)
                      (walk_completes w p) (python_files_of (walked_tree w p) (py_str p))]
     else
       exists text,
         snd h = inr [text]
         /\ (if succeeded (subprocess_run w (analysis_cmd p) 60)
                || truthy (arg arguments "detailed" (PBool false))
             then True else text = empty_summary p).
Proof.
  intros p h. subst p h. split.
  - rewrite handler_spawns. destruct (_ && _); simpl; lia.
  - destruct (accepted w name arguments) eqn:Hacc; simpl negb; cbv iota.
    + destruct (accepted_has_arguments _ _ _ Hacc) as [Hk [Hn [Ht He]]].
      destruct (known_tool_cases name Hk) as [-> | [-> | [-> | ->]]]; simpl String.eqb; cbv iota.
      * destruct (handle_analyze w arguments Hn Ht He) as [text [Hrun Htext]].
        exists text. rewrite Hrun. split; [reflexivity|].
        unfold path_arg, path_key. simpl String.eqb. cbv iota. fold (arg arguments "file_path" PNone).
        destruct (succeeded _) eqn:Hs; [exact I|]. simpl orb.
        destruct (truthy (arg arguments "detailed" (PBool false))) eqn:Hd; [exact I|].
        now apply Htext.
      * rewrite (handle_add_types w arguments Hn Ht He).
        unfold path_arg, path_key. simpl String.eqb. cbv iota.
        fold (arg arguments "file_path" PNone). cbv zeta. split.
        -- destruct (truthy (arg arguments "backup" (PBool true))); [|reflexivity].
           now destruct (shutil_copy2 w _ _).
        -- destruct (succeeded _) eqn:Hs; [exact I|].
           unfold add_types_text. rewrite Hs.
           exists ("Failed to add types to " +:+ py_str (arg arguments "file_path" PNone)
                   +:+ nl +:+ nl +:+ "Error:" +:+ nl).
           rewrite !append_assoc. now destruct (subprocess_run w _ 60).
      * rewrite (handle_type_check w arguments Hn Ht He).
        unfold path_arg, path_key. simpl String.eqb. cbv iota.
        fold (arg arguments "file_path" PNone).
        destruct (subprocess_run w _ 30) as [rc out err | m | m]; try exact I.
        split; [reflexivity|]. unfold type_check_text.
        destruct (rc =? 0)%Z; [exact I|].
        exists ("Type checking found issues in " +:+ py_str (arg arguments "file_path" PNone)
                +:+ nl +:+ nl +:+ "Errors:" +:+ nl).
        now rewrite !append_assoc.
      * rewrite (handle_project_context w arguments Hn Ht He). reflexivity.
    + rewrite handler_spawns, handler_copies, Hacc. simpl.
      destruct (known_tool name) eqn:Hk.
      * unfold accepted in Hacc. rewrite Hk in Hacc. simpl in Hacc.
        destruct (handler_rejects w name arguments Hk Hacc) as [msg ->]. simpl. eauto.
      * rewrite (handler_unknown_tool w name arguments Hk). simpl. eauto.
Qed.

(** * More on analyze_file *)

Lemma analyze_file_is_patched (w : World) (file_path : pyval) :
  analyze_file w file_path = analyze_file_with (run_pyrefly_command w) file_path.
Proof. reflexivity. Qed.

Lemma error_analysis_lookup (e file_path : pyval) :
  error_analysis e file_path !! "file_path" = Some (OVal file_path)
  /\ error_analysis e file_path !! "error" = Some (OVal e)
  /\ error_analysis e file_path !! "pyrefly_output" = None.
Proof. unfold error_analysis. repeat split; now map_lookup. Qed.

Lemma parsed_analysis_lookup (output : string) (file_path : pyval) :
  parsed_analysis output file_path !! "file_path" = Some (OVal file_path)
  /\ parsed_analysis output file_path !! "error" = None
  /\ parsed_analysis output file_path !! "pyrefly_output" = Some (OVal (PStr output)).
Proof. unfold parsed_analysis. repeat split; now map_lookup. Qed.

(** X1. Whatever [run_pyrefly_command] is patched to do (return any
    record, or raise any exception), [analyze_file] does not raise and adds
    no interaction of its own: it returns a dict whose [file_path] entry is
    its argument and which holds either an [error] entry or a
    [pyrefly_output] entry, never both. *)
Theorem analyze_file_always_answers
  (run_command : list pyval -> Z -> M (gmap string pyval)) (file_path : pyval)
  (tr : list event) :
  exists analysis,
    analyze_file_with run_command file_path tr
    = (fst (run_command (analysis_cmd file_path) 60%Z tr), inr analysis)
    /\ analysis !! "file_path" = Some (OVal file_path)
    /\ (is_Some (analysis !! "error") <-> analysis !! "pyrefly_output" = None).
Proof.
  unfold analyze_file_with, try_except, bind, lift, ret, default_timeout.
  change [PStr "uv"; PStr "run"; PStr "pyrefly"; PStr "autotype"; file_path]
    with (analysis_cmd file_path).
  assert (Herr : forall e (tr' : list event),
             exists analysis,
               (tr', inr (error_analysis e file_path) : res (gmap string pyobj))
               = (tr', inr analysis)
               /\ analysis !! "file_path" = Some (OVal file_path)
               /\ (is_Some (analysis !! "error") <-> analysis !! "pyrefly_output" = None)).
  { intros e tr'. eexists. split; [reflexivity|].
    destruct (error_analysis_lookup e file_path) as [-> [-> ->]].
    split; [reflexivity|]. split; eauto. }
  destruct (run_command (analysis_cmd file_path) 60%Z tr) as [tr' [e | result]]; simpl fst;
    [apply Herr|].
  destruct (getitem result "success") as [e | success]; [apply Herr|].
  destruct (truthy success); [|apply Herr].
  destruct (getitem result "stdout") as [e | stdout]; [apply Herr|].
  destruct stdout as [| b | z | s]; try apply Herr.
  rewrite parse_text. eexists. split; [reflexivity|].
  destruct (parsed_analysis_lookup s file_path) as [-> [-> ->]].
  split; [reflexivity|]. split; [intros [? ?]|]; discriminate.
Qed.

(** X2. [analyze_file] reports a failed run in the dict it returns: the
    dict has an [error] entry exactly when the run did not end with exit
    code zero, and the entry is then the stderr of a run that completed,
    the timeout message with the 60 seconds in it, or the text of the
    exception; a failed run gives exactly the two entries [error] and
    [file_path], a successful one the seven entries of an analysis. *)
Theorem analyze_file_reports_failure (w : World) (file_path : pyval) :
  let o := subprocess_run w (analysis_cmd file_path) 60 in
  exists analysis,
    run (analyze_file w file_path) = ([EvSpawn (analysis_cmd file_path) 60], inr analysis)
    /\ analysis !! "error"
       = (if succeeded o then None
          else Some (OVal (PStr match o with
                                | Completed _ _ err => err
                                | RunTimeout _ => "Pyrefly execution timed out after 60s"
                                | RunRaises m => m
                                end)))
    /\ dom analysis
       = (if succeeded o
          then list_to_set ["file_path"; "functions_needing_types"; "variables_needing_types";
                            "suggested_types"; "total_functions"; "total_variables";
                            "pyrefly_output"]
          else list_to_set ["error"; "file_path"]).
Proof.
  intros o. unfold run. rewrite analyze_file_trace. eexists. split; [reflexivity|].
  unfold runner_outcome. simpl runner_cmd. simpl runner_timeout. fold o.
  destruct (succeeded o) eqn:Hs.
  - destruct (parsed_analysis_lookup (captured_stdout o) file_path) as [_ [-> _]].
    split; [reflexivity|]. unfold parsed_analysis.
    rewrite !dom_insert_L, dom_empty_L. simpl. set_solver.
  - match goal with
    | |- context [error_analysis ?e _] =>
        destruct (error_analysis_lookup e file_path) as [_ [-> _]]
    end.
    split; [now destruct o|]. unfold error_analysis.
    rewrite !dom_insert_L, dom_empty_L. simpl. set_solver.
Qed.

(** * More on _parse_pyrefly_analysis *)

Lemma strip_keeps_no_newline (piece : string) :
  PyStr.contains nl piece = false -> PyStr.contains nl (PyStr.strip piece) = false.
Proof.
  intros H. destruct (PyStr.contains nl (PyStr.strip piece)) eqn:Hc; [|reflexivity].
  apply contains_spec in Hc. destruct Hc as [pre [post Hc]].
  destruct (strip_spec piece) as [l [r [Hp _]]].
  assert (Hin : PyStr.contains nl piece = true).
  { apply contains_spec. exists (l +:+ pre), (post +:+ r).
    rewrite Hp at 1. rewrite Hc. now rewrite !append_assoc. }
  congruence.
Qed.

Lemma filter_length_le {A} (f : A -> bool) (l : list A) :
  (length (List.filter f l) <= length l)%nat.
Proof. induction l as [|x l IH]; simpl; [lia|]. destruct (f x); simpl; lia. Qed.

Lemma filter_partition_length {A} (f g : A -> bool) (l : list A) :
  (length (List.filter f l) + length (List.filter (fun x => negb (f x) && g x) l)
   <= length l)%nat.
Proof.
  induction l as [|x l IH]; simpl; [lia|].
  destruct (f x); simpl; [lia|]. destruct (g x); simpl; lia.
Qed.

(** X3. Every line that [_parse_pyrefly_analysis] stores, in either list,
    is stored stripped: it is not empty, holds no newline, and neither
    starts nor ends with whitespace. The two lists together hold at most one
    entry per line of the output, and the counters [total_functions] and
    [total_variables] stay zero, and [suggested_types] empty, however many
    lines are stored. *)
Theorem parsed_lines_are_stripped (output : string) (file_path : pyval) :
  exists analysis functions variables,
    _parse_pyrefly_analysis (PStr output) file_path = inr analysis
    /\ analysis !! "functions_needing_types" = Some (OList (PStr <$> functions))
    /\ analysis !! "variables_needing_types" = Some (OList (PStr <$> variables))
    /\ (forall line, In line (functions ++ variables) ->
          line <> EmptyString
          /\ PyStr.contains nl line = false
          /\ starts_with_space line = false
          /\ ends_with_space line = false)
    /\ (length functions + length variables <= length (PyStr.split_lines output))%nat
    /\ analysis !! "total_functions" = Some (OVal (PInt 0))
    /\ analysis !! "total_variables" = Some (OVal (PInt 0))
    /\ analysis !! "suggested_types" = Some (ODict []).
Proof.
  rewrite parse_text. unfold parsed_analysis. rewrite parse_loop. simpl fst. simpl snd.
  do 3 eexists. split; [reflexivity|].
  split; [now map_lookup|]. split; [now map_lookup|].
  split; [|split; [|repeat split; now map_lookup]].
  - intros line Hin.
    assert (Hline : In line (PyStr.strip <$> PyStr.split_lines output)
                    /\ (is_function_line line = true \/ is_variable_line line = true)).
    { apply in_app_iff in Hin. destruct Hin as [H | H]; apply filter_In in H;
        destruct H as [H1 H2]; split; auto.
      apply andb_true_iff in H2. tauto. }
    destruct Hline as [Hmem Htest].
    apply in_map_iff in Hmem. destruct Hmem as [piece [<- Hpiece]].
    split; [|split].
    + intros Hempty. rewrite Hempty in Htest. destruct Htest; discriminate.
    + apply strip_keeps_no_newline.
      pose proof (split_lines_no_newline output) as Hall.
      rewrite Forall_forall in Hall. apply Hall. now apply list_elem_of_In.
    + destruct (strip_spec piece) as [_ [_ [_ [_ [_ H]]]]]. exact H.
  - rewrite <- (length_fmap PyStr.strip (PyStr.split_lines output)).
    apply filter_partition_length.
Qed.

(** * More on the walk *)

Lemma endswith_append (a b suffix : string) :
  PyStr.endswith b suffix = true -> PyStr.endswith (a +:+ b) suffix = true.
Proof.
  rewrite !endswith_spec. intros [stem ->]. exists (a +:+ stem). now rewrite append_assoc.
Qed.

Lemma path_join_endswith (a b suffix : string) :
  PyStr.endswith b suffix = true -> PyStr.endswith (path_join a b) suffix = true.
Proof.
  intros H. unfold path_join. destruct (PyStr.startswith b "/"); [exact H|].
  destruct (_ || _); repeat apply endswith_append; exact H.
Qed.

Lemma path_join_startswith (a b : string) :
  PyStr.startswith b "/" = false -> PyStr.startswith (path_join a b) a = true.
Proof.
  intros H. unfold path_join. rewrite H.
  destruct (_ || _); apply startswith_spec; eauto.
Qed.

Lemma startswith_trans (p q r : string) :
  PyStr.startswith p q = true -> PyStr.startswith q r = true -> PyStr.startswith p r = true.
Proof.
  rewrite !startswith_spec. intros [x ->] [y ->]. exists (y +:+ x). now rewrite append_assoc.
Qed.

Lemma reaches_endswith (t : fstree) (root p : string) :
  reaches t root p -> PyStr.endswith p ".py" = true.
Proof.
  induction 1 as [dirs files root file Hin Hpy | dirs files root d sub p Hin Hkeep _ IH].
  - apply path_join_endswith. now apply endswith_spec.
  - exact IH.
Qed.

(** X4. Every path [get_project_context] collects ends in [.py], and the
    project directory's own [.py] files are always collected, whatever the
    directory is called: the pruning looks at the names of sub-directories
    only, not at the project path and not at file names. *)
Theorem walk_collects_py_paths (t : fstree) (root : string) (dirs : list (string * fstree))
  (files : list string) :
  (forall p, In p (walk_collect t root []) -> PyStr.endswith p ".py" = true)
  /\ (forall file, In file files -> PyStr.endswith file ".py" = true ->
                   In (path_join root file) (walk_collect (Listed dirs files) root [])).
Proof.
  split.
  - intros p Hin. rewrite walk_collect_spec in Hin. simpl in Hin.
    apply python_files_of_reaches in Hin. now apply reaches_endswith in Hin.
  - intros file Hin Hpy. rewrite walk_collect_spec.
    change ([] ++ python_files_of (Listed dirs files) root)
      with (python_files_of (Listed dirs files) root).
    apply reaches_python_files_of. apply reaches_here; [exact Hin|].
    now apply endswith_spec.
Qed.

Lemma walk_collects_py_paths_witness :
  In (path_join ".venv" ".conf.py")
     (walk_collect (Listed [] [".conf.py"; "notes.txt"]) ".venv" []).
Proof.
  apply (walk_collects_py_paths Unlisted ".venv" [] [".conf.py"; "notes.txt"]).
  - left. reflexivity.
  - reflexivity.
Defined.

Lemma plain_names_listed (dirs : list (string * fstree)) (files : list string) :
  plain_names (Listed dirs files) = true ->
  Forall (fun file => PyStr.startswith file "/" = false) files
  /\ Forall (fun entry => PyStr.startswith (fst entry) "/" = false
                          /\ plain_names (snd entry) = true) dirs.
Proof.
  simpl. rewrite andb_true_iff. intros [Hf Hd]. split.
  - rewrite forallb_forall in Hf. apply Forall_forall. intros file Hin.
    apply list_elem_of_In in Hin. apply Hf in Hin. now apply negb_true_iff.
  - induction dirs as [|[d sub] ds IH]; [constructor|].
    rewrite !andb_true_iff in Hd. destruct Hd as [[Hd Hsub] Hds].
    constructor; [|now apply IH]. simpl. split; [now apply negb_true_iff | exact Hsub].
Qed.

Lemma reaches_under_root (t : fstree) (root p : string) :
  reaches t root p -> plain_names t = true -> PyStr.startswith p root = true.
Proof.
  induction 1 as [dirs files root file Hin Hpy | dirs files root d sub p Hin Hkeep _ IH];
    intros Hplain; apply plain_names_listed in Hplain; destruct Hplain as [Hf Hd].
  - apply path_join_startswith. rewrite Forall_forall in Hf. apply Hf.
    now apply list_elem_of_In.
  - rewrite Forall_forall in Hd. apply list_elem_of_In in Hin.
    destruct (Hd _ Hin) as [Hname Hsub]. simpl in Hname, Hsub.
    apply (startswith_trans _ (path_join root d)); [now apply IH|].
    now apply path_join_startswith.
Qed.

(** X5. When the directory listings give bare names (none starts with a
    slash), every path [get_project_context] collects lies under the
    project path: it starts with the path the walk was given. *)
Theorem walk_stays_under_root (t : fstree) (root p : string) :
  plain_names t = true ->
  In p (walk_collect t root []) ->
  PyStr.startswith p root = true.
Proof.
  intros Hplain Hin. rewrite walk_collect_spec in Hin. simpl in Hin.
  apply python_files_of_reaches in Hin. now apply (reaches_under_root t).
Qed.

Lemma walk_stays_under_root_witness :
  PyStr.startswith "proj/src/pkg/m.py" "proj" = true.
Proof.
  apply (walk_stays_under_root sample_tree "proj" "proj/src/pkg/m.py").
  - reflexivity.
  - right. right. left. reflexivity.
Defined.

(** * More on get_project_context *)

Lemma get_project_context_shape (w : World) (project_path : pyval) :
  let o := subprocess_run w (project_check_cmd project_path) 60 in
  let found := python_files_of (walked_tree w project_path) (py_str project_path) in
  exists context,
    run (get_project_context w project_path)
    = ([EvSpawn (project_check_cmd project_path) 60; EvWalk project_path], inr context)
    /\ context !! "project_path" = Some (OVal project_path)
    /\ context !! "python_files" = Some (OList (PStr <$> found))
    /\ context !! "pyrefly_compatible" = Some (OVal (PBool (succeeded o)))
    /\ context !! "error"
       = match walk_error w project_path with
         | Some m => Some (OVal (PStr m))
         | None => None
         end
    /\ context !! "analysis_summary"
       = Some (ODict (match walk_error w project_path with
                      | None =>
                          if succeeded o
                          then [("output", PStr (captured_stdout o));
                                ("total_files", PInt (Z.of_nat (length found)))]
                          else []
                      | Some _ => []
                      end))
    /\ dom context ⊆ list_to_set context_keys.
Proof.
  intros o found. subst o found.
  unfold run, get_project_context, or_record_error, try_except, bind, default_timeout.
  change (run_pyrefly_command w _ 60)
    with (runner_exec w (ByCommand (project_check_cmd project_path) 60)).
  rewrite runner_exec_trace. unfold lift.
  rewrite getitem_success. unfold py_walk_collect, bind, emit. simpl app.
  unfold runner_outcome. simpl runner_cmd. simpl runner_timeout.
  assert (Hdom : forall (c : gmap string pyobj) k v,
             k ∈ (list_to_set context_keys : gset string) ->
             dom c ⊆ list_to_set context_keys -> dom (<[k := v]> c) ⊆ list_to_set context_keys).
  { intros c k v Hk Hc. rewrite dom_insert_L. apply union_subseteq. split; [|exact Hc].
    now apply singleton_subseteq_l. }
  assert (Hempty : dom (∅ : gmap string pyobj) ⊆ (list_to_set context_keys : gset string)).
  { rewrite dom_empty_L. apply empty_subseteq. }
  assert (Hkeys : forall k, In k context_keys -> k ∈ (list_to_set context_keys : gset string)).
  { intros k Hk. apply elem_of_list_to_set. now apply list_elem_of_In. }
  assert (Hshape : forall (c : gmap string pyobj) (P : Prop),
             P -> dom c ⊆ list_to_set context_keys ->
             P /\ dom c ⊆ list_to_set context_keys) by (intros; now split).
  destruct project_path as [| b | z | s]; simpl;
    try (eexists; split; [reflexivity|]; do 5 (split; [now map_lookup|]);
         repeat (apply Hdom; [apply Hkeys; simpl; tauto|]); exact Hempty).
  destruct (os_walk w s) as [m | t]; simpl.
  - eexists; split; [reflexivity|]. do 5 (split; [now map_lookup|]).
    repeat (apply Hdom; [apply Hkeys; simpl; tauto|]); exact Hempty.
  - rewrite walk_collect_spec. simpl app. unfold ret.
    change "stdout" with (stdout_key (ByCommand (project_check_cmd (PStr s)) 60)).
    unfold getitem. rewrite lookup_stdout_key.
    destruct (subprocess_run w (project_check_cmd (PStr s)) 60) as [rc out err | m | m];
      simpl; [destruct (rc =? 0)%Z; simpl|..];
      (eexists; split; [reflexivity|]; do 5 (split; [now map_lookup|]);
       repeat (apply Hdom; [apply Hkeys; simpl; tauto|]); exact Hempty).
Qed.

(** X6. [get_project_context] does not raise. The context it returns
    carries the project path it was given; an [error] entry exactly when
    the walk raised (a failed check run leaves none: it only shows as a
    false [pyrefly_compatible]); and an [analysis_summary] that is filled,
    with the stdout of the check and the number of collected files as
    [total_files], exactly when the check succeeded and the walk went
    through, and is the empty dict otherwise. *)
Theorem project_context_shape (w : World) (project_path : pyval) :
  let o := subprocess_run w (project_check_cmd project_path) 60 in
  let found := python_files_of (walked_tree w project_path) (py_str project_path) in
  exists context,
    run (get_project_context w project_path)
    = ([EvSpawn (project_check_cmd project_path) 60; EvWalk project_path], inr context)
    /\ context !! "project_path" = Some (OVal project_path)
    /\ context !! "python_files" = Some (OList (PStr <$> found))
    /\ context !! "pyrefly_compatible" = Some (OVal (PBool (succeeded o)))
    /\ context !! "error"
       = match walk_error w project_path with
         | Some m => Some (OVal (PStr m))
         | None => None
         end
    /\ context !! "analysis_summary"
       = Some (ODict (match walk_error w project_path with
                      | None =>
                          if succeeded o
                          then [("output", PStr (captured_stdout o));
                                ("total_files", PInt (Z.of_nat (length found)))]
                          else []
                      | Some _ => []
                      end))
    /\ dom context ⊆ list_to_set context_keys.
Proof. apply get_project_context_shape. Qed.

(** * More on handle_call_tool *)

(** Decide the comparisons of two literal names. *)
Ltac eval_eqb :=
  repeat match goal with
         | |- context [String.eqb ?a ?b] =>
             let r := eval vm_compute in (String.eqb a b) in
             lazymatch r with
             | true => change (String.eqb a b) with true
             | false => change (String.eqb a b) with false
             end
         end.

Lemma require_path_cases (w : World) (missing not_found : string) (p : pyval)
  (tr : list event) :
  require_path w missing not_found p tr
  = if negb (truthy p) then (tr, inl (ValueError missing))
    else if path_exists w p then (tr ++ [EvExists p], inr tt)
    else (tr ++ [EvExists p], inl (ValueError (not_found +:+ py_str p))).
Proof.
  unfold require_path, py_exists, bind, emit, ret, raise.
  destruct (truthy p); simpl; [|reflexivity]. now destruct (path_exists w p).
Qed.

Lemma handler_rejection (w : World) (name : string) (arguments : option (gmap string pyval)) :
  match rejection w name arguments with
  | Some msg =>
      run (handle_call_tool w name arguments)
      = (if known_tool name && truthy (path_arg name arguments)
         then [EvExists (path_arg name arguments)] else [],
         inl (ValueError msg))
  | None => accepted w name arguments = true
  end.
Proof.
  unfold rejection, accepted.
  destruct (no_arguments arguments) eqn:Hn.
  - unfold path_arg. rewrite (no_arguments_get _ _ _ Hn). simpl truthy. rewrite andb_false_r.
    unfold run. rewrite handle_call_tool_unfold, Hn. reflexivity.
  - destruct (known_tool name) eqn:Hk; simpl negb; cbv iota.
    2:{ rewrite (handler_unknown_tool w name arguments Hk), Hn. reflexivity. }
    simpl andb.
    destruct (known_tool_cases name Hk) as [-> | [-> | [-> | ->]]];
      unfold path_arg, path_key; eval_eqb; cbv iota;
      unfold run; rewrite handle_call_tool_unfold, Hn; eval_eqb; cbv beta iota zeta;
      unfold bind at 1; rewrite require_path_cases;
      destruct (truthy (dict_get (default ∅ arguments) _ PNone)); simpl negb; cbv iota;
      try reflexivity;
      destruct (path_exists w (dict_get (default ∅ arguments) _ PNone)); reflexivity.
Qed.

Lemma accepted_never_value_error (w : World) (name : string)
  (arguments : option (gmap string pyval)) (msg : string) :
  accepted w name arguments = true ->
  snd (run (handle_call_tool w name arguments)) <> inl (ValueError msg).
Proof.
  intros Hacc. destruct (accepted_has_arguments _ _ _ Hacc) as [Hk [Hn [Ht He]]].
  destruct (known_tool_cases name Hk) as [-> | [-> | [-> | ->]]].
  - destruct (handle_analyze w arguments Hn Ht He) as [text [-> _]]. simpl; intros H; discriminate H.
  - rewrite (handle_add_types w arguments Hn Ht He).
    destruct (truthy (arg arguments "backup" (PBool true)));
      [destruct (shutil_copy2 w _ _)|]; simpl; intros H; discriminate H.
  - rewrite (handle_type_check w arguments Hn Ht He).
    destruct (subprocess_run w _ 30); simpl; intros H; discriminate H.
  - rewrite (handle_project_context w arguments Hn Ht He). simpl; intros H; discriminate H.
Qed.

(** X7. [handle_call_tool] raises [ValueError] exactly when it turns the
    request down, always before it spawns or copies anything, and the
    message says which check failed, in this order: no arguments at all
    ([None] or an empty dict, even when the operation is unknown too), an
    unknown operation, a missing or empty path argument (named
    [project_path] for [get_project_context], [file_path] otherwise), a
    path that does not exist. *)
Theorem rejection_message_by_check
  (w : World) (name : string) (arguments : option (gmap string pyval)) :
  let p := path_arg name arguments in
  let h := run (handle_call_tool w name arguments) in
  match rejection w name arguments with
  | Some msg =>
      h = (if known_tool name && truthy p then [EvExists p] else [], inl (ValueError msg))
  | None => forall msg, snd h <> inl (ValueError msg)
  end
  /\ rejection w name arguments
     = (if no_arguments arguments then Some "Missing arguments"
        else if negb (known_tool name) then Some ("Unknown tool: " +:+ name)
        else if negb (truthy p)
             then Some (if String.eqb name "get_project_context"
                        then "Missing project_path argument"
                        else "Missing file_path argument")
        else if path_exists w p then None
        else if String.eqb name "get_project_context"
             then Some ("Project path not found: " +:+ py_str p)
             else Some ("File not found: " +:+ py_str p)).
Proof.
  intros p h. subst p h. split.
  - pose proof (handler_rejection w name arguments) as H.
    destruct (rejection w name arguments) as [msg|]; [exact H|].
    intros msg. now apply accepted_never_value_error.
  - unfold rejection, path_key.
    destruct (no_arguments arguments); [reflexivity|].
    destruct (known_tool name); [|reflexivity]. simpl negb. cbv iota.
    destruct (truthy _); [reflexivity|]. simpl negb. cbv iota.
    now destruct (String.eqb name "get_project_context").
Qed.

Lemma listed_tool_names (name : string) :
  In name (tool_name <$> handle_list_tools) <-> known_tool name = true.
Proof.
  unfold known_tool. rewrite !orb_true_iff, !String.eqb_eq. simpl. split.
  - intros [H | [H | [H | [H | []]]]]; subst; tauto.
  - intros [[[H | H] | H] | H]; subst; tauto.
Qed.

(** X8. The operations [handle_list_tools] lists are the ones
    [handle_call_tool] carries out: given some arguments, a call is
    answered [Unknown tool] exactly when its name is not listed; and every
    argument a listed schema requires is declared in it as a string and is
    the one the handler insists on, a call without it (or with an empty
    one) being turned down with [Missing ... argument] before anything
    else happens. *)
Theorem listed_tools_are_handled
  (w : World) (name : string) (arguments : option (gmap string pyval)) :
  no_arguments arguments = false ->
  (run (handle_call_tool w name arguments) = ([], inl (ValueError ("Unknown tool: " +:+ name)))
   <-> ~ In name (tool_name <$> handle_list_tools))
  /\ (forall t key,
        In t handle_list_tools -> In key (tool_required t) ->
        In (key, "string") ((fun p => (prop_name p, prop_type p)) <$> tool_properties t)
        /\ (truthy (arg arguments key PNone) = false ->
            run (handle_call_tool w (tool_name t) arguments)
            = ([], inl (ValueError ("Missing " +:+ key +:+ " argument"))))).
Proof.
  intros Hn. split.
  - rewrite listed_tool_names. split.
    + intros Hrun Hk.
      pose proof (handler_rejection w name arguments) as Hrej.
      unfold rejection in Hrej. rewrite Hn, Hk in Hrej. simpl negb in Hrej. cbv iota in Hrej.
      destruct (truthy (path_arg name arguments)) eqn:Ht; simpl negb in Hrej; cbv iota in Hrej.
      * destruct (path_exists w (path_arg name arguments)) eqn:He.
        -- apply (accepted_never_value_error w name arguments
                    ("Unknown tool: " +:+ name) Hrej).
           now rewrite Hrun.
        -- destruct (String.eqb name "get_project_context");
             rewrite Hrun in Hrej; simpl andb in Hrej; discriminate Hrej.
      * rewrite Hrun in Hrej. injection Hrej as Hmsg. vm_compute in Hmsg. discriminate Hmsg.
    + intros Hk. apply not_true_is_false in Hk.
      rewrite (handler_unknown_tool w name arguments Hk), Hn. reflexivity.
  - intros t key Ht Hkey.
    assert (Hcases : (tool_name t = "analyze_python_file" \/ tool_name t = "add_types_to_file"
                      \/ tool_name t = "type_check_file") /\ key = "file_path"
                     \/ tool_name t = "get_project_context" /\ key = "project_path").
    { simpl in Ht. destruct Ht as [<- | [<- | [<- | [<- | []]]]];
        simpl in Hkey; destruct Hkey as [<- | []]; simpl; tauto. }
    split.
    + simpl in Ht. destruct Ht as [<- | [<- | [<- | [<- | []]]]];
        simpl in Hkey; destruct Hkey as [<- | []]; simpl; tauto.
    + intros Hmissing.
      pose proof (handler_rejection w (tool_name t) arguments) as Hrej.
      unfold rejection in Hrej. rewrite Hn in Hrej.
      assert (Hpath : path_arg (tool_name t) arguments = arg arguments key PNone).
      { unfold path_arg, path_key, arg.
        destruct Hcases as [[[-> | [-> | ->]] ->] | [-> ->]]; reflexivity. }
      assert (Hkey' : path_key (tool_name t) = key).
      { unfold path_key. destruct Hcases as [[[-> | [-> | ->]] ->] | [-> ->]]; reflexivity. }
      assert (Hknown : known_tool (tool_name t) = true).
      { destruct Hcases as [[[-> | [-> | ->]] _] | [-> _]]; reflexivity. }
      rewrite Hknown, Hpath, Hmissing, Hkey' in Hrej. simpl in Hrej. exact Hrej.
Qed.

Lemma listed_tools_are_handled_witness :
  run (handle_call_tool (world_where true None (Completed 0 "ok" EmptyString) Unlisted)
         "get_project_context" (only_path "file_path" "a.py"))
  = ([], inl (ValueError "Missing project_path argument")).
Proof.
  destruct (listed_tools_are_handled
              (world_where true None (Completed 0 "ok" EmptyString) Unlisted)
              "get_project_context" (only_path "file_path" "a.py") eq_refl)
    as [_ H].
  destruct (H (nth 3 handle_list_tools
                 {| tool_name := EmptyString; tool_description := EmptyString;
                    tool_properties := []; tool_required := [] |})
              "project_path") as [_ Hmissing].
  - right. right. right. left. reflexivity.
  - left. reflexivity.
  - exact (Hmissing eq_refl).
Defined.

Lemma dict_get_insert_ne (a : gmap string pyval) (k k' : string) (v d : pyval) :
  k <> k' -> dict_get (<[k := v]> a) k' d = dict_get a k' d.
Proof. intros H. unfold dict_get. now rewrite lookup_insert_ne. Qed.

Lemma dict_get_insert_default (a : gmap string pyval) (k : string) (v : pyval) :
  a !! k = None -> dict_get (<[k := v]> a) k v = dict_get a k v.
Proof. intros H. unfold dict_get. now rewrite lookup_insert_eq, H. Qed.

Lemma no_arguments_insert (a : gmap string pyval) (k : string) (v : pyval) :
  no_arguments (Some (<[k := v]> a)) = false.
Proof.
  simpl. apply bool_decide_eq_false. rewrite dom_insert_L. set_solver.
Qed.

(** Rewrite the reads of an updated dict of arguments into reads of the
    original one. *)
Ltac same_reads H :=
  rewrite !handle_call_tool_unfold, no_arguments_insert;
  eval_eqb; cbv beta iota zeta;
  change (default ∅ (Some ?x)) with x;
  rewrite ?dict_get_insert_ne by discriminate;
  rewrite ?(dict_get_insert_default _ _ _ H).

(** X9. Leaving an optional argument out is the same as passing the
    default its schema declares: for every listed tool and every property
    with a default ([detailed] false, [backup] true, [aggressive] false,
    [safe_mode] true), a call with some arguments but without that one
    does exactly what the call with the default filled in does. *)
Theorem omitted_argument_takes_schema_default
  (w : World) (t : tool) (prop : schema_property) (v : pyval) (arguments : gmap string pyval) :
  In t handle_list_tools ->
  In prop (tool_properties t) ->
  prop_default prop = Some v ->
  arguments !! prop_name prop = None ->
  no_arguments (Some arguments) = false ->
  run (handle_call_tool w (tool_name t) (Some arguments))
  = run (handle_call_tool w (tool_name t) (Some (<[prop_name prop := v]> arguments))).
Proof.
  intros Ht Hprop Hdefault Hnone Hn. unfold run.
  simpl in Ht. destruct Ht as [<- | [<- | [<- | [<- | []]]]]; simpl in Hprop;
    repeat (destruct Hprop as [<- | Hprop]; simpl in Hdefault, Hnone;
            try discriminate Hdefault);
    try contradiction;
    injection Hdefault as <-;
    same_reads Hnone; rewrite Hn; reflexivity.
Qed.

Lemma omitted_argument_takes_schema_default_witness :
  run (handle_call_tool (world_where true None (Completed 0 "ok" EmptyString) Unlisted)
         "add_types_to_file" (only_path "file_path" "a.py"))
  = run (handle_call_tool (world_where true None (Completed 0 "ok" EmptyString) Unlisted)
           "add_types_to_file"
           (Some (<["backup" := PBool true]> (<["file_path" := PStr "a.py"]> ∅)))).
Proof.
  apply (omitted_argument_takes_schema_default
           (world_where true None (Completed 0 "ok" EmptyString) Unlisted)
           (nth 1 handle_list_tools
              {| tool_name := EmptyString; tool_description := EmptyString;
                 tool_properties := []; tool_required := [] |})
           {| prop_name := "backup"; prop_type := "boolean";
              prop_description := "Create a backup of the original file";
              prop_default := Some (PBool true) |}
           (PBool true) (<["file_path" := PStr "a.py"]> ∅)).
  - right. left. reflexivity.
  - right. left. reflexivity.
  - reflexivity.
  - reflexivity.
  - reflexivity.
Defined.

Lemma dict_get_insert_eq (a : gmap string pyval) (k : string) (v d : pyval) :
  dict_get (<[k := v]> a) k d = v.
Proof. unfold dict_get. now rewrite lookup_insert_eq. Qed.

Lemma run_autotype_ignores_flags (w : World) (file_path aggressive safe_mode : pyval) :
  run_pyrefly_autotype w file_path
    (Some (<["aggressive" := aggressive]> (<["safe_mode" := safe_mode]> ∅)))
  = run_pyrefly_autotype w file_path None.
Proof.
  unfold run_pyrefly_autotype.
  change (<["aggressive" := aggressive]> (<["safe_mode" := safe_mode]> ∅))
    with (handler_options aggressive safe_mode).
  now rewrite autotype_cmd_of_handler.
Qed.

(** X10. The [aggressive] and [safe_mode] arguments of
    [add_types_to_file] change nothing at all: whatever values they are
    given, the call interacts with the system in the same way and returns
    the same result. *)
Theorem inference_flags_change_nothing
  (w : World) (arguments : gmap string pyval) (a s a' s' : pyval) :
  run (handle_call_tool w "add_types_to_file"
         (Some (<["aggressive" := a]> (<["safe_mode" := s]> arguments))))
  = run (handle_call_tool w "add_types_to_file"
           (Some (<["aggressive" := a']> (<["safe_mode" := s']> arguments)))).
Proof.
  unfold run. rewrite !handle_call_tool_unfold, !no_arguments_insert.
  eval_eqb. cbv beta iota zeta. change (default ∅ (Some ?x)) with x.
  rewrite !dict_get_insert_eq.
  rewrite !(dict_get_insert_ne _ "aggressive") by discriminate.
  rewrite !dict_get_insert_eq.
  rewrite !(dict_get_insert_ne _ "safe_mode") by discriminate.
  rewrite !run_autotype_ignores_flags. reflexivity.
Qed.

(** X11. When the process of an accepted [type_check_file] call does not
    run to completion (it times out, or cannot be started), the handler
    raises [KeyError('output')] after its one spawn instead of returning a
    text: the failure branch reads the [output] entry, which only the
    record of a completed run has. *)
Theorem incomplete_check_raises_key_error (w : World) (arguments : option (gmap string pyval)) :
  let file_path := arg arguments "file_path" PNone in
  truthy file_path = true ->
  path_exists w file_path = true ->
  completed (subprocess_run w (check_cmd file_path) 30) = false ->
  run (handle_call_tool w "type_check_file" arguments)
  = ([EvExists file_path; EvSpawn (check_cmd file_path) 30], inl (KeyError "output")).
Proof.
  intros file_path Ht He Hc.
  pose proof (truthy_path_has_arguments "type_check_file" arguments Ht) as Hn.
  rewrite (handle_type_check w arguments Hn Ht He). fold file_path.
  now destruct (subprocess_run w (check_cmd file_path) 30).
Qed.

Lemma incomplete_check_raises_key_error_witness :
  run (handle_call_tool (world_where true None (RunRaises "No such file: uv") Unlisted)
         "type_check_file" (only_path "file_path" "a.py"))
  = ([EvExists (PStr "a.py"); EvSpawn (check_cmd (PStr "a.py")) 30], inl (KeyError "output")).
Proof.
  apply (incomplete_check_raises_key_error
           (world_where true None (RunRaises "No such file: uv") Unlisted)
           (only_path "file_path" "a.py")); reflexivity.
Defined.

Lemma texts_of_parsed (shown file_path : pyval) (output : string) :
  let lines := PyStr.strip <$> PyStr.split_lines output in
  let functions := List.filter is_function_line lines in
  let variables := List.filter (fun l => negb (is_function_line l) && is_variable_line l) lines in
  brief_text shown (parsed_analysis output file_path)
  = inr (brief_summary shown functions variables)
  /\ detailed_text shown (parsed_analysis output file_path)
     = inr (detailed_summary shown functions variables output).
Proof.
  intros lines functions variables.
  unfold brief_text, detailed_text, parsed_analysis. rewrite parse_loop.
  simpl fst. simpl snd. dict_lookup. simpl py_len. simpl py_iter. simpl py_items.
  simpl res_bind. rewrite !length_fmap, !bullet_strings. split; reflexivity.
Qed.

(** X12. After a successful run, the text of an accepted
    [analyze_python_file] call is built from the parsed output: the two
    counts are the numbers of stripped output lines that pass the function
    test, and that fail it and pass the variable test; with the [detailed]
    option the text also lists those lines, one bullet each, and ends with
    the raw output. *)
Theorem analysis_text_counts_lines
  (w : World) (arguments : option (gmap string pyval)) (out err : string) :
  let file_path := arg arguments "file_path" PNone in
  let lines := PyStr.strip <$> PyStr.split_lines out in
  let functions := List.filter is_function_line lines in
  let variables := List.filter (fun l => negb (is_function_line l) && is_variable_line l) lines in
  truthy file_path = true ->
  path_exists w file_path = true ->
  subprocess_run w (analysis_cmd file_path) 60 = Completed 0 out err ->
  run (handle_call_tool w "analyze_python_file" arguments)
  = ([EvExists file_path; EvSpawn (analysis_cmd file_path) 60],
     inr [if truthy (arg arguments "detailed" (PBool false))
          then detailed_summary file_path functions variables out
          else brief_summary file_path functions variables]).
Proof.
  unfold arg. cbv zeta. set (file_path := dict_get (default ∅ arguments) "file_path" PNone).
  intros Ht He Hrun.
  pose proof (truthy_path_has_arguments "analyze_python_file" arguments Ht) as Hn.
  unfold run. rewrite handle_call_tool_unfold, Hn. eval_eqb. cbv beta iota zeta.
  fold file_path. unfold bind. rewrite require_path_ok by assumption.
  rewrite analyze_file_trace. simpl app. unfold lift, ret.
  unfold runner_outcome. simpl runner_cmd. simpl runner_timeout. rewrite Hrun.
  simpl succeeded. cbv iota. simpl captured_stdout.
  destruct (texts_of_parsed file_path file_path out) as [Hbrief Hdetailed].
  destruct (truthy (dict_get (default ∅ arguments) "detailed" (PBool false)));
    [rewrite Hdetailed | rewrite Hbrief]; reflexivity.
Qed.

Lemma analysis_text_counts_lines_witness :
  run (handle_call_tool (world_where true None (Completed 0 sample_output EmptyString) Unlisted)
         "analyze_python_file" (only_path "file_path" "a.py"))
  = ([EvExists (PStr "a.py"); EvSpawn (analysis_cmd (PStr "a.py")) 60],
     inr ["Pyrefly Analysis for a.py:" +:+ nl +:+ "Functions needing types: 2" +:+ nl
          +:+ "Variables needing types: 1"]).
Proof.
  apply (analysis_text_counts_lines
           (world_where true None (Completed 0 sample_output EmptyString) Unlisted)
           (only_path "file_path" "a.py") sample_output EmptyString); reflexivity.
Defined.

(** X13. The only file a call of [handle_call_tool] ever writes is the
    backup, and the only walk is that of the project: an accepted
    [add_types_to_file] call with a true [backup] option copies the file
    once, to the path with [.backup] appended; an accepted
    [get_project_context] call walks the project path once; every other
    call, and every rejected one, copies nothing and walks nothing. *)
Theorem only_backup_is_written
  (w : World) (name : string) (arguments : option (gmap string pyval)) :
  let p := path_arg name arguments in
  let tr := fst (run (handle_call_tool w name arguments)) in
  copies tr
  = (if accepted w name arguments && String.eqb name "add_types_to_file"
        && truthy (arg arguments "backup" (PBool true))
     then [(p, py_str p +:+ ".backup")] else [])
  /\ walks tr
     = (if accepted w name arguments && String.eqb name "get_project_context"
        then [p] else []).
Proof.
  intros p tr. subst p tr. split; [apply handler_copies|].
  rewrite handler_trace. unfold expected_trace, accepted.
  destruct (known_tool name) eqn:Hk; [|reflexivity].
  destruct (truthy (path_arg name arguments)); [|reflexivity].
  destruct (path_exists w (path_arg name arguments)); [|reflexivity].
  simpl negb. cbv iota. simpl andb.
  destruct (String.eqb_spec name "add_types_to_file") as [->|Hne].
  - simpl String.eqb. cbv iota.
    destruct (truthy (arg arguments "backup" (PBool true))),
      (backup_fails w arguments); reflexivity.
  - now destruct (String.eqb name "get_project_context").
Qed.

(** * handle_get_prompt *)

Lemma handle_get_prompt_unfold (w : World) (name : string) (arguments : option (gmap string pyval)) :
  handle_get_prompt w name arguments
  = ltac:(let body := eval cbv delta [handle_get_prompt] beta in
                        (handle_get_prompt w name arguments) in exact body).
Proof. reflexivity. Qed.

Lemma append_empty_r (s : string) : s +:+ EmptyString = s.
Proof.
  induction s as [|c s IH]; [reflexivity|].
  change (String c (s +:+ EmptyString) = String c s). now f_equal.
Qed.

Lemma typing_needs_text_suffix (w : World) (shown file_path : pyval) (suffix : string) :
  typing_needs_text shown (analysis_of w file_path) suffix
  = inr (typing_needs_core shown (analysis_of w file_path) +:+ suffix).
Proof.
  unfold typing_needs_core, typing_needs_text, analysis_of.
  destruct (succeeded _); unfold parsed_analysis, error_analysis; dict_lookup;
    simpl py_len; simpl res_bind; rewrite append_empty_r, !append_assoc; reflexivity.
Qed.

Lemma analyze_file_run (w : World) (file_path : pyval) (tr : list event) :
  analyze_file w file_path tr
  = (tr ++ [EvSpawn (analysis_cmd file_path) 60], inr (analysis_of w file_path)).
Proof. apply analyze_file_trace. Qed.

Lemma get_prompt_typing_needs (w : World) (arguments : option (gmap string pyval)) :
  let file_path := dict_get (or_empty arguments) "file_path" (PStr EmptyString) in
  let flag := dict_get (or_empty arguments) "include_suggestions" (PStr "false") in
  run (handle_get_prompt w "analyze_typing_needs" arguments)
  = match py_lower flag with
    | inl e => ([], inl e)
    | inr lowered =>
        if truthy file_path then
          ([EvSpawn (analysis_cmd file_path) 60],
           inr {| result_description := "Type analysis for " +:+ py_str file_path;
                  result_role := "user";
                  result_text :=
                    typing_needs_core file_path (analysis_of w file_path)
                    +:+ (if String.eqb lowered "true" then suggestions_sentence
                         else EmptyString) |})
        else ([], inl (ValueError "file_path argument is required"))
    end.
Proof.
  cbv zeta. unfold run. rewrite handle_get_prompt_unfold. eval_eqb. cbv beta iota zeta.
  unfold bind at 1, lift at 1.
  destruct (py_lower _) as [e | lowered]; [reflexivity|].
  destruct (truthy _); [|reflexivity].
  change (negb true) with false. cbv beta iota.
  unfold bind. rewrite analyze_file_run. simpl app. unfold lift.
  rewrite typing_needs_text_suffix. reflexivity.
Qed.

Lemma get_prompt_improvement_plan (w : World) (arguments : option (gmap string pyval)) :
  let project_path := dict_get (or_empty arguments) "project_path" (PStr EmptyString) in
  let priority := dict_get (or_empty arguments) "priority" (PStr "medium") in
  let found := python_files_of (walked_tree w project_path) (py_str project_path) in
  exists context,
    run (get_project_context w project_path)
    = ([EvSpawn (project_check_cmd project_path) 60; EvWalk project_path], inr context)
    /\ run (handle_get_prompt w "type_improvement_plan" arguments)
       = if truthy project_path then
           ([EvSpawn (project_check_cmd project_path) 60; EvWalk project_path],
            inr {| result_description := "Type improvement plan for " +:+ py_str project_path;
                   result_role := "user";
                   result_text := plan_text project_path priority (length found)
                                    (dict_str context_keys context) |})
         else ([], inl (ValueError "project_path argument is required")).
Proof.
  cbv zeta.
  destruct (get_project_context_trace w
              (dict_get (or_empty arguments) "project_path" (PStr EmptyString)) [])
    as [context [Hrun [Hfiles _]]].
  exists context. split; [exact Hrun|].
  unfold run. rewrite handle_get_prompt_unfold. eval_eqb. cbv beta iota zeta.
  destruct (truthy _); [|reflexivity].
  change (negb true) with false. cbv beta iota.
  unfold bind. simpl app in Hrun. rewrite Hrun. unfold lift, improvement_plan_text, dict_get.
  rewrite Hfiles. simpl py_len. simpl res_bind. rewrite length_fmap. reflexivity.
Qed.

Lemma get_prompt_unknown (w : World) (name : string) (arguments : option (gmap string pyval)) :
  String.eqb name "analyze_typing_needs" = false ->
  String.eqb name "type_improvement_plan" = false ->
  run (handle_get_prompt w name arguments) = ([], inl (ValueError ("Unknown prompt: " +:+ name))).
Proof.
  intros H1 H2. unfold run. rewrite handle_get_prompt_unfold, H1, H2. reflexivity.
Qed.

(** X14. [handle_get_prompt] does not check that the path exists, and a
    failed run does not make it raise: an [analyze_typing_needs] request
    with a non-empty [file_path] (and a textual [include_suggestions], or
    none) spawns the analysis run, once, interacts with nothing else, and
    returns a user message described as [Type analysis for] the path. *)
Theorem typing_prompt_skips_existence_check
  (w : World) (arguments : option (gmap string pyval)) (lowered : string) :
  let file_path := dict_get (or_empty arguments) "file_path" (PStr EmptyString) in
  py_lower (dict_get (or_empty arguments) "include_suggestions" (PStr "false")) = inr lowered ->
  truthy file_path = true ->
  exists text,
    run (handle_get_prompt w "analyze_typing_needs" arguments)
    = ([EvSpawn [PStr "uv"; PStr "run"; PStr "pyrefly"; PStr "autotype"; file_path] 60],
       inr {| result_description := "Type analysis for " +:+ py_str file_path;
              result_role := "user";
              result_text := text |}).
Proof.
  intros file_path Hflag Ht. rewrite get_prompt_typing_needs, Hflag. fold file_path.
  rewrite Ht. eauto.
Qed.

Lemma typing_prompt_skips_existence_check_witness :
  exists text,
    run (handle_get_prompt (world_where false None (RunRaises "No such file: uv") Unlisted)
           "analyze_typing_needs" (only_path "file_path" "missing.py"))
    = ([EvSpawn [PStr "uv"; PStr "run"; PStr "pyrefly"; PStr "autotype"; PStr "missing.py"] 60],
       inr {| result_description := "Type analysis for missing.py";
              result_role := "user";
              result_text := text |}).
Proof.
  apply (typing_prompt_skips_existence_check
           (world_where false None (RunRaises "No such file: uv") Unlisted)
           (only_path "file_path" "missing.py") "false"); reflexivity.
Defined.

Ltac by_character c :=
  destruct c as [[] [] [] [] [] [] [] []]; unfold either_case; vm_compute;
  (split; [intros H; first [discriminate H | tauto]
          | intros [H | H]; first [discriminate H | reflexivity]]).

Lemma lower_char_t (c : ascii) : PyStr.lower_char c = "t"%char <-> either_case "t" "T" c.
Proof. by_character c. Qed.
Lemma lower_char_r (c : ascii) : PyStr.lower_char c = "r"%char <-> either_case "r" "R" c.
Proof. by_character c. Qed.
Lemma lower_char_u (c : ascii) : PyStr.lower_char c = "u"%char <-> either_case "u" "U" c.
Proof. by_character c. Qed.
Lemma lower_char_e (c : ascii) : PyStr.lower_char c = "e"%char <-> either_case "e" "E" c.
Proof. by_character c. Qed.

Lemma lower_is_true (s : string) :
  String.eqb (PyStr.lower s) "true" = true
  <-> exists a b c d,
        s = String a (String b (String c (String d EmptyString)))
        /\ either_case "t" "T" a /\ either_case "r" "R" b
        /\ either_case "u" "U" c /\ either_case "e" "E" d.
Proof.
  rewrite String.eqb_eq. split.
  - destruct s as [|a [|b [|c [|d [|x s]]]]]; simpl; try discriminate.
    intros H. injection H as Ha Hb Hc Hd.
    exists a, b, c, d. split; [reflexivity|].
    now rewrite <- lower_char_t, <- lower_char_r, <- lower_char_u, <- lower_char_e.
  - intros [a [b [c [d [-> [Ha [Hb [Hc Hd]]]]]]]]. simpl.
    apply lower_char_t in Ha. apply lower_char_r in Hb.
    apply lower_char_u in Hc. apply lower_char_e in Hd.
    now rewrite Ha, Hb, Hc, Hd.
Qed.

(** X15. In the [analyze_typing_needs] prompt, [include_suggestions] only
    adds one closing sentence to the text, and it does so exactly when its
    value is the word [true] in any mix of small and capital letters; a
    value that is not text makes the request raise [AttributeError] before
    anything is spawned, and before the path argument is looked at. *)
Theorem include_suggestions_reads_true
  (w : World) (arguments : gmap string pyval) (flag : pyval) :
  let file_path := dict_get arguments "file_path" (PStr EmptyString) in
  let request := Some (<["include_suggestions" := flag]> arguments) in
  match flag with
  | PStr s =>
      (if truthy file_path then
         exists core,
           run (handle_get_prompt w "analyze_typing_needs"
                  (Some (<["include_suggestions" := PStr "false"]> arguments)))
           = ([EvSpawn (analysis_cmd file_path) 60],
              inr {| result_description := "Type analysis for " +:+ py_str file_path;
                     result_role := "user";
                     result_text := core |})
           /\ run (handle_get_prompt w "analyze_typing_needs" request)
              = ([EvSpawn (analysis_cmd file_path) 60],
                 inr {| result_description := "Type analysis for " +:+ py_str file_path;
                        result_role := "user";
                        result_text :=
                          core +:+ (if String.eqb (PyStr.lower s) "true"
                                    then suggestions_sentence else EmptyString) |})
       else run (handle_get_prompt w "analyze_typing_needs" request)
            = ([], inl (ValueError "file_path argument is required")))
      /\ (String.eqb (PyStr.lower s) "true" = true
          <-> exists a b c d,
                s = String a (String b (String c (String d EmptyString)))
                /\ either_case "t" "T" a /\ either_case "r" "R" b
                /\ either_case "u" "U" c /\ either_case "e" "E" d)
  | v =>
      run (handle_get_prompt w "analyze_typing_needs" request)
      = ([], inl (AttributeError ("'" +:+ type_name v +:+ "' object has no attribute 'lower'")))
  end.
Proof.
  cbv zeta.
  assert (Hreq : forall v,
             run (handle_get_prompt w "analyze_typing_needs"
                    (Some (<["include_suggestions" := v]> arguments)))
             = match py_lower v with
               | inl e => ([], inl e)
               | inr lowered =>
                   if truthy (dict_get arguments "file_path" (PStr EmptyString)) then
                     ([EvSpawn (analysis_cmd (dict_get arguments "file_path" (PStr EmptyString))) 60],
                      inr {| result_description :=
                               "Type analysis for "
                               +:+ py_str (dict_get arguments "file_path" (PStr EmptyString));
                             result_role := "user";
                             result_text :=
                               typing_needs_core
                                 (dict_get arguments "file_path" (PStr EmptyString))
                                 (analysis_of w (dict_get arguments "file_path" (PStr EmptyString)))
                               +:+ (if String.eqb lowered "true" then suggestions_sentence
                                    else EmptyString) |})
                   else ([], inl (ValueError "file_path argument is required"))
               end).
  { intros v. rewrite get_prompt_typing_needs. unfold or_empty.
    change (default ∅ (Some ?x)) with x.
    rewrite dict_get_insert_eq, dict_get_insert_ne by discriminate. reflexivity. }
  destruct flag as [| b | z | s]; try (rewrite Hreq; reflexivity).
  split; [|apply lower_is_true].
  rewrite !Hreq. simpl py_lower. cbv iota.
  destruct (truthy _); [|reflexivity].
  eexists. split; [|reflexivity].
  change (String.eqb (PyStr.lower "false") "true") with false. cbv iota.
  now rewrite append_empty_r.
Qed.

Lemma listed_prompt_names (name : string) :
  In name (prompt_name <$> handle_list_prompts)
  <-> String.eqb name "analyze_typing_needs" || String.eqb name "type_improvement_plan" = true.
Proof.
  rewrite orb_true_iff, !String.eqb_eq. simpl. split.
  - intros [H | [H | []]]; subst; tauto.
  - intros [H | H]; subst; tauto.
Qed.

(** X16. The prompts [handle_list_prompts] lists are the ones
    [handle_get_prompt] serves: a request is answered [Unknown prompt]
    exactly when its name is not listed, whatever its arguments are (even
    none); and each argument a listed prompt marks as required is the one
    the handler insists on: without it, or with an empty one, the request
    is turned down with [... argument is required] before anything is
    spawned (for [analyze_typing_needs], provided [include_suggestions] is
    text or absent). *)
Theorem listed_prompts_are_served
  (w : World) (name : string) (arguments : option (gmap string pyval)) :
  (run (handle_get_prompt w name arguments)
   = ([], inl (ValueError ("Unknown prompt: " +:+ name)))
   <-> ~ In name (prompt_name <$> handle_list_prompts))
  /\ (forall p a lowered,
        In p handle_list_prompts -> In a (prompt_arguments p) -> parg_required a = true ->
        py_lower (dict_get (or_empty arguments) "include_suggestions" (PStr "false"))
        = inr lowered ->
        truthy (dict_get (or_empty arguments) (parg_name a) (PStr EmptyString)) = false ->
        run (handle_get_prompt w (prompt_name p) arguments)
        = ([], inl (ValueError (parg_name a +:+ " argument is required")))).
Proof.
  split.
  - rewrite listed_prompt_names. split.
    + intros Hrun Hlisted. apply orb_true_iff in Hlisted.
      rewrite !String.eqb_eq in Hlisted. destruct Hlisted as [-> | ->].
      * rewrite get_prompt_typing_needs in Hrun.
        destruct (py_lower _) as [e | lowered] eqn:Hflag.
        -- unfold py_lower in Hflag.
           destruct (dict_get _ _ _); try discriminate Hflag;
             injection Hflag as <-; discriminate Hrun.
        -- destruct (truthy _); [discriminate Hrun|].
           injection Hrun as Hmsg. vm_compute in Hmsg. discriminate Hmsg.
      * destruct (get_prompt_improvement_plan w arguments) as [context [_ Hplan]].
        rewrite Hplan in Hrun.
        destruct (truthy _); [discriminate Hrun|].
        injection Hrun as Hmsg. vm_compute in Hmsg. discriminate Hmsg.
    + intros Hno. apply not_true_is_false in Hno. apply orb_false_iff in Hno.
      destruct Hno as [H1 H2]. now apply get_prompt_unknown.
  - intros p a lowered Hp Ha Hreq Hflag Hmissing.
    simpl in Hp. destruct Hp as [<- | [<- | []]]; simpl in Ha;
      destruct Ha as [<- | [<- | []]]; simpl in Hreq; try discriminate Hreq;
      simpl in Hmissing |- *.
    + rewrite get_prompt_typing_needs, Hflag, Hmissing. reflexivity.
    + destruct (get_prompt_improvement_plan w arguments) as [context [_ Hplan]].
      rewrite Hplan, Hmissing. reflexivity.
Qed.

Lemma listed_prompts_are_served_witness :
  run (handle_get_prompt (world_where true None (Completed 0 "ok" EmptyString) Unlisted)
         "type_improvement_plan" (only_path "file_path" "a.py"))
  = ([], inl (ValueError "project_path argument is required")).
Proof.
  destruct (listed_prompts_are_served
              (world_where true None (Completed 0 "ok" EmptyString) Unlisted)
              "type_improvement_plan" (only_path "file_path" "a.py"))
    as [_ H].
  apply (H (nth 1 handle_list_prompts
              {| prompt_name := EmptyString; prompt_description := EmptyString;
                 prompt_arguments := [] |})
           {| parg_name := "project_path";
              parg_description := "Path to the project directory";
              parg_required := true |}
           "false").
  - right. left. reflexivity.
  - left. reflexivity.
  - reflexivity.
  - reflexivity.
  - reflexivity.
Defined.

Lemma context_keys_cover (w : World) (project_path : pyval) (context : gmap string pyobj)
  (tr : list event) :
  run (get_project_context w project_path) = (tr, inr context) ->
  dom context ⊆ list_to_set context_keys.
Proof.
  intros Hrun.
  destruct (get_project_context_shape w project_path) as [context' [Hrun' H]].
  rewrite Hrun' in Hrun. inversion Hrun; subst. apply H.
Qed.

(** X17. A [type_improvement_plan] request with a non-empty
    [project_path] is served without checking that the path exists: it runs
    the project check once, walks once, and returns a user message whose
    text gives the priority asked for ([medium] when none is), the number
    of [.py] files the walk collected, and the whole context dict, of
    which no entry is left out. *)
Theorem improvement_plan_prompt (w : World) (arguments : option (gmap string pyval)) :
  let project_path := dict_get (or_empty arguments) "project_path" (PStr EmptyString) in
  let priority := dict_get (or_empty arguments) "priority" (PStr "medium") in
  let found := python_files_of (walked_tree w project_path) (py_str project_path) in
  truthy project_path = true ->
  exists context,
    run (get_project_context w project_path)
    = ([EvSpawn (project_check_cmd project_path) 60; EvWalk project_path], inr context)
    /\ context !! "python_files" = Some (OList (PStr <$> found))
    /\ dom context ⊆ list_to_set context_keys
    /\ run (handle_get_prompt w "type_improvement_plan" arguments)
       = ([EvSpawn (project_check_cmd project_path) 60; EvWalk project_path],
          inr {| result_description := "Type improvement plan for " +:+ py_str project_path;
                 result_role := "user";
                 result_text := plan_text project_path priority (length found)
                                  (dict_str context_keys context) |}).
Proof.
  intros project_path priority found Ht.
  destruct (get_prompt_improvement_plan w arguments) as [context [Hrun Hplan]].
  fold project_path in Hrun, Hplan. fold priority in Hplan. fold found in Hplan.
  rewrite Ht in Hplan. exists context. split; [exact Hrun|]. split.
  - destruct (get_project_context_trace w project_path []) as [context' [Hrun' [Hfiles _]]].
    simpl app in Hrun'. unfold run in Hrun. rewrite Hrun' in Hrun.
    injection Hrun as <-. exact Hfiles.
  - split; [exact (context_keys_cover w project_path context _ Hrun) | exact Hplan].
Qed.

Lemma improvement_plan_prompt_witness :
  exists context,
    run (handle_get_prompt (world_where false None (Completed 1 EmptyString "bad") sample_tree)
           "type_improvement_plan" (only_path "project_path" "proj"))
    = ([EvSpawn (project_check_cmd (PStr "proj")) 60; EvWalk (PStr "proj")],
       inr {| result_description := "Type improvement plan for proj";
              result_role := "user";
              result_text := plan_text (PStr "proj") (PStr "medium") 3
                               (dict_str context_keys context) |}).
Proof.
  destruct (improvement_plan_prompt
              (world_where false None (Completed 1 EmptyString "bad") sample_tree)
              (only_path "project_path" "proj") eq_refl)
    as [context [_ [_ [_ H]]]].
  exists context. exact H.
Defined.

(** * The resource *)

(** X18. The resource [handle_list_resources] lists is the one
    [handle_read_resource] can read: a URL is read without an exception
    exactly when it is the listed one (scheme [pyrefly], text
    [pyrefly://analysis/status]); a URL of another scheme is refused for
    its scheme, whatever its text; and the document that is read names, in
    quotes, every tool that [handle_list_tools] lists. *)
Theorem listed_resource_is_readable (uri : any_url) :
  ((exists text, handle_read_resource uri = inr text)
   <-> In uri (resource_uri <$> handle_list_resources))
  /\ (forall text,
        handle_read_resource uri = inr text ->
        Forall (fun t => PyStr.contains (quoted (tool_name t)) text = true) handle_list_tools)
  /\ (if String.eqb (url_scheme uri) "pyrefly" then True
      else handle_read_resource uri
           = inl (ValueError ("Unsupported URI scheme: " +:+ url_scheme uri))).
Proof.
  destruct uri as [scheme text]. unfold handle_read_resource. simpl url_scheme. simpl url_text.
  split; [|split].
  - simpl. split.
    + intros [doc H].
      destruct (String.eqb_spec scheme "pyrefly") as [-> | Hs]; simpl in H; [|discriminate H].
      destruct (String.eqb_spec text "pyrefly://analysis/status") as [-> | Ht];
        [now left | discriminate H].
    + intros [H | []]. injection H as <- <-. simpl. eauto.
  - intros doc H.
    destruct (String.eqb scheme "pyrefly"); simpl in H; [|discriminate H].
    destruct (String.eqb text "pyrefly://analysis/status"); [|discriminate H].
    injection H as <-. repeat constructor.
  - now destruct (String.eqb scheme "pyrefly").
Qed.

Lemma texts_of_error (shown file_path e : pyval) :
  brief_text shown (error_analysis e file_path) = inr (brief_summary shown [] [])
  /\ detailed_text shown (error_analysis e file_path)
     = inr (detailed_summary shown [] [] "No output available").
Proof.
  unfold brief_text, detailed_text, error_analysis. dict_lookup. split; reflexivity.
Qed.

(** X19. After a failed run (a non-zero exit code, a timeout, or a process
    that could not be started), an accepted [analyze_python_file] call
    still returns its usual text, with both counts zero and, in the
    detailed form, no line listed and [No output available] as the output:
    the text is the same whatever the failure was, and the error string
    that [analyze_file] recorded is not part of it. *)
Theorem failed_analysis_text
  (w : World) (arguments : option (gmap string pyval)) :
  let file_path := arg arguments "file_path" PNone in
  truthy file_path = true ->
  path_exists w file_path = true ->
  succeeded (subprocess_run w (analysis_cmd file_path) 60) = false ->
  run (handle_call_tool w "analyze_python_file" arguments)
  = ([EvExists file_path; EvSpawn (analysis_cmd file_path) 60],
     inr [if truthy (arg arguments "detailed" (PBool false))
          then detailed_summary file_path [] [] "No output available"
          else brief_summary file_path [] []]).
Proof.
  unfold arg. cbv zeta. set (file_path := dict_get (default ∅ arguments) "file_path" PNone).
  intros Ht He Hrun.
  pose proof (truthy_path_has_arguments "analyze_python_file" arguments Ht) as Hn.
  unfold run. rewrite handle_call_tool_unfold, Hn. eval_eqb. cbv beta iota zeta.
  fold file_path. unfold bind. rewrite require_path_ok by assumption.
  rewrite analyze_file_trace. simpl app. unfold lift, ret.
  unfold runner_outcome. simpl runner_cmd. simpl runner_timeout. rewrite Hrun.
  match goal with
  | |- context [error_analysis ?e file_path] =>
      destruct (texts_of_error file_path file_path e) as [Hbrief Hdetailed]
  end.
  destruct (truthy (dict_get (default ∅ arguments) "detailed" (PBool false)));
    [rewrite Hdetailed | rewrite Hbrief]; reflexivity.
Qed.

Lemma failed_analysis_text_witness :
  run (handle_call_tool (world_where true None (Completed 2 EmptyString "boom") Unlisted)
         "analyze_python_file"
         (Some (<["file_path" := PStr "a.py"]> (<["detailed" := PBool true]> ∅))))
  = ([EvExists (PStr "a.py"); EvSpawn (analysis_cmd (PStr "a.py")) 60],
     inr [detailed_summary (PStr "a.py") [] [] "No output available"]).
Proof.
  exact (failed_analysis_text
           (world_where true None (Completed 2 EmptyString "boom") Unlisted)
           (Some (<["file_path" := PStr "a.py"]> (<["detailed" := PBool true]> ∅)))
           eq_refl eq_refl eq_refl).
Defined.

(** * The sample module *)

Lemma group_step_lookup (grouped : gmap string (list string)) (w k : string) :
  Sample.group_step grouped w !! k
  = if filed_under k w then Some (default [] (grouped !! k) ++ [w]) else grouped !! k.
Proof.
  unfold Sample.group_step, filed_under, first_letter. destruct w as [|c w].
  - rewrite bool_decide_eq_false_2 by discriminate. reflexivity.
  - simpl. destruct (decide (String (PyStr.lower_char c) EmptyString = k)) as [<- | Hne].
    + rewrite lookup_insert_eq, bool_decide_eq_true_2 by reflexivity. reflexivity.
    + rewrite lookup_insert_ne by exact Hne.
      rewrite bool_decide_eq_false_2 by congruence. reflexivity.
Qed.

Lemma group_fold_lookup (words : list string) (grouped : gmap string (list string)) (k : string) :
  fold_left Sample.group_step words grouped !! k
  = match List.filter (filed_under k) words with
    | [] => grouped !! k
    | ws => Some (default [] (grouped !! k) ++ ws)
    end.
Proof.
  revert grouped. induction words as [|w words IH]; intros grouped; simpl; [reflexivity|].
  rewrite IH, group_step_lookup. destruct (filed_under k w); [|reflexivity].
  simpl. destruct (List.filter (filed_under k) words); simpl; [reflexivity|].
  now rewrite <- app_assoc.
Qed.

(** X20. [group_by_first_letter] files every non-empty word under its
    first character, lowercased, and drops the empty ones: the group of a
    key is the list of the words that start with that letter, in either
    case, in the order and as often as they come in the input, and a key
    under which no word falls is absent from the result. *)
Theorem groups_are_the_words_by_letter (words : list string) (k : string) :
  Sample.group_by_first_letter words !! k
  = match List.filter (filed_under k) words with
    | [] => None
    | ws => Some ws
    end.
Proof.
  unfold Sample.group_by_first_letter. rewrite group_fold_lookup, lookup_empty.
  now destruct (List.filter (filed_under k) words).
Qed.

Lemma fold_keeps_first_maximum (xs : list (gmap string Z)) :
  forall x,
    exists before after,
      x :: xs
      = before
        ++ fold_left (fun best y => if (Sample.price best <? Sample.price y)%Z then y else best)
             xs x
        :: after
      /\ Forall (fun y => (Sample.price y
                          < Sample.price
                              (fold_left (fun best y => if (Sample.price best <? Sample.price y)%Z
                                                        then y else best) xs x))%Z) before
      /\ Forall (fun y => (Sample.price y
                          <= Sample.price
                               (fold_left (fun best y => if (Sample.price best <? Sample.price y)%Z
                                                         then y else best) xs x))%Z) after.
Proof.
  induction xs as [|y ys IH]; intros x; simpl.
  - exists [], []. repeat split; constructor.
  - destruct (Z.ltb_spec (Sample.price x) (Sample.price y)) as [Hlt | Hge].
    + destruct (IH y) as [before [after [Heq [Hb Ha]]]].
      remember (fold_left _ ys y) as best eqn:Hbest. clear Hbest.
      exists (x :: before), after. split; [simpl; now rewrite Heq|]. split; [|exact Ha].
      constructor; [|exact Hb].
      destruct before as [|b before]; simpl in Heq; injection Heq as Hy Hrest.
      * rewrite <- Hy. exact Hlt.
      * subst b. inversion Hb; subst. lia.
    + destruct (IH x) as [before [after [Heq [Hb Ha]]]].
      remember (fold_left _ ys x) as best eqn:Hbest. clear Hbest.
      destruct before as [|b before]; simpl in Heq; injection Heq as Hx Hrest.
      * exists [], (y :: after). split; [simpl; now rewrite <- Hx, Hrest|].
        split; [constructor|]. constructor; [rewrite <- Hx; exact Hge | exact Ha].
      * subst b. exists (x :: y :: before), after.
        split; [simpl; now rewrite Hrest|]. split; [|exact Ha].
        inversion Hb; subst. constructor; [assumption|]. constructor; [lia | assumption].
Qed.

(** X21. [get_most_expensive_item] returns [None] exactly for the empty
    list, and otherwise the first item of greatest price, an item without a
    [price] counting as priced zero: every item before the returned one is
    strictly cheaper, and no item after it is dearer. *)
Theorem most_expensive_is_first_maximum (items : list (gmap string Z)) :
  (Sample.get_most_expensive_item items = None <-> items = [])
  /\ (forall best,
        Sample.get_most_expensive_item items = Some best ->
        exists before after,
          items = before ++ best :: after
          /\ Forall (fun y => (Sample.price y < Sample.price best)%Z) before
          /\ Forall (fun y => (Sample.price y <= Sample.price best)%Z) after).
Proof.
  destruct items as [|x xs]; simpl.
  - split; [tauto | discriminate].
  - split; [split; discriminate|].
    intros best H. injection H as <-. apply fold_keeps_first_maximum.
Qed.
